(** * tinyAPI data store provider: a shallow embedding of
      [base/data_store/provider.py] and the properties of its session,
      query executor and registry.

    The Python objects are modelled by records holding their attributes,
    the methods by functions in a small state-and-exception monad, and the
    external collaborators (the pymysql driver, the cache client, the
    clock, the configuration) by an environment record together with a
    trace of the calls made on them.

    Strings are sequences of ASCII characters. *)

From Stdlib Require Import ZArith String Ascii List Bool Lia.
From stdpp Require Import base option list gmap strings pretty.

Local Open Scope string_scope.
Local Open Scope Z_scope.

(** ** Python values and sequences *)

Module Py.

(** The values a caller binds to a statement or finds in a row. *)
Inductive value : Type :=
| VNone
| VBool (b : bool)
| VInt (z : Z)
| VStr (s : string).

#[global] Instance value_eq_dec : EqDecision value.
Proof. solve_decision. Defined.

(** [str(value)] *)
Definition str (v : value) : string :=
  match v with
  | VNone => "None"
  | VBool true => "True"
  | VBool false => "False"
  | VInt z => pretty z
  | VStr s => s
  end.

(** [sep.join(items)]: a [TypeError] (here [None]) when an item is not a
    string. *)
Fixpoint join_strs (items : list value) : option (list string) :=
  match items with
  | [] => Some []
  | VStr s :: rest => cons s <$> join_strs rest
  | _ :: _ => None
  end.

Definition join (sep : string) (items : list value) : option string :=
  String.concat sep <$> join_strs items.

(** [seq[index]] with Python's negative indices: [None] stands for the
    [IndexError] raised out of range. *)
Definition index {A} (l : list A) (i : Z) : option A :=
  let n := Z.of_nat (length l) in
  if (0 <=? i) && (i <? n) then l !! Z.to_nat i
  else if (i <? 0) && (- n <=? i) then l !! Z.to_nat (n + i)
  else None.

End Py.

Export Py(value, VNone, VBool, VInt, VStr).

(** ** The regular expressions of the module *)

Module Re.

Definition lower (c : ascii) : ascii :=
  let n := nat_of_ascii c in
  if (65 <=? n)%nat && (n <=? 90)%nat then ascii_of_nat (n + 32) else c.

Fixpoint lower_string (s : string) : string :=
  match s with
  | EmptyString => EmptyString
  | String c r => String (lower c) (lower_string r)
  end.

(** [\s] on ASCII text: space, the controls 9 to 13 and 28 to 31. *)
Definition is_space (c : ascii) : bool :=
  let n := nat_of_ascii c in
  (n =? 32)%nat || ((9 <=? n)%nat && (n <=? 13)%nat)
  || ((28 <=? n)%nat && (n <=? 31)%nat).

(** [re.match(lit, s, re.IGNORECASE)] for a lower-case literal [lit]. *)
Definition match_literal_ci (lit s : string) : bool :=
  String.prefix lit (lower_string s).

(** [re.match('^\(?select\s', s, re.IGNORECASE)] *)
Definition match_select (s : string) : bool :=
  let after_paren :=
    match s with
    | String "(" r => r
    | _ => s
    end in
  match_literal_ci "select" after_paren &&
  match String.substring 6 1 after_paren with
  | String c _ => is_space c
  | EmptyString => false
  end.

(** [re.match('^show ', s, re.IGNORECASE)] *)
Definition match_show (s : string) : bool := match_literal_ci "show " s.

(** [re.match('current_timestamp', s) is not None] *)
Definition match_current_timestamp (s : string) : bool :=
  String.prefix "current_timestamp" s.

(** [re.search('^_binary ', s)] *)
Definition search_binary_prefix (s : string) : bool :=
  String.prefix "_binary " s.

(** [re.sub(pat, '', s)] for a literal, non-empty [pat]: one pass from
    the left that drops every non-overlapping occurrence.  [skip] counts
    the characters of an occurrence still to be dropped. *)
Fixpoint sub_literal_go (pat : string) (skip : nat) (s : string) : string :=
  match s with
  | EmptyString => EmptyString
  | String c r =>
      match skip with
      | S k => sub_literal_go pat k r
      | O =>
          if String.prefix pat s
          then sub_literal_go pat (String.length pat - 1) r
          else String c (sub_literal_go pat 0 r)
      end
  end.

Definition sub_binary (s : string) : string :=
  sub_literal_go "_binary " 0 s.


Definition newline : ascii := ascii_of_nat 10.

(** The group of a greedy any-character group followed by the literal
    [lit], matched at the start of [s]: the longest newline-free prefix
    of [s] after which [lit] follows; a shorter one is tried only when
    the longer ones fail. *)
Fixpoint greedy_group (lit : string) (s : string) : option string :=
  let here := if String.prefix lit s then Some EmptyString else None in
  match s with
  | EmptyString => here
  | String c r =>
      let longer :=
        if Ascii.eqb c newline then None
        else String c <$> greedy_group lit r in
      match longer with
      | Some g => Some g
      | None => here
      end
  end.

Fixpoint strip_prefix (p s : string) : option string :=
  match p, s with
  | EmptyString, _ => Some s
  | String a p', String b s' =>
      if Ascii.eqb a b then strip_prefix p' s' else None
  | String _ _, EmptyString => None
  end.

(** The pattern of [__extract_not_null_column]: the literal [Column '],
    a greedy group, the literal [' cannot be null], matched at the start
    of the message; the result is group 1, [None] when there is no
    match. *)
Definition match_not_null (message : string) : option string :=
  rest ← strip_prefix "Column '" message;
  greedy_group "' cannot be null" rest.

End Re.


(** ** Data model *)

(** Objects of the driver are known by their identity. *)
Definition handle := nat.
Definition cursor := nat.

(** A row of a [DictCursor]: column names with their values, in order. *)
Definition record := list (string * value).

(** What [fetchall] hands back, and what the cache holds: a tuple or a
    list of rows. *)
Inductive rows : Type :=
| RowsTuple (l : list record)
| RowsList (l : list record).

Definition rows_items (r : rows) : list record :=
  match r with
  | RowsTuple l => l
  | RowsList l => l
  end.

(** The value [query] returns: [True] for a write, the rows for a read. *)
Inductive result : Type :=
| RTrue
| RRows (r : rows).

(** The bind argument of [cursor.execute]: [None] or a sequence. *)
Definition binds := option (list value).

(** What one [cursor.execute] call does. *)
Inductive exec_outcome : Type :=
| ExecOk (rowcount : Z) (lastrowid : option Z) (fetched : rows)
| ExecIntegrityError (errno : Z) (message : string)
| ExecInternalError (errno : Z) (message : string)
| ExecProgrammingError (errno : Z) (message : string)
| ExecOtherError (message : string).

(** The exceptions that leave the methods. *)
Inductive exn : Type :=
| DataStoreException (message : string)
| ColumnCannotBeNullException (column : string)
| DataStoreDuplicateKeyException (message : string)
| DataStoreForeignKeyException (message : string)
| IllegalMixOfCollationsException (sql : string) (b : binds)
| IntegrityError (errno : Z) (message : string)
| InternalError (errno : Z) (message : string)
| ProgrammingError (errno : Z) (message : string)
| DriverError (message : string)
| AttributeError
| TypeError
| IndexError.

(** Calls made on the collaborators, most recent first in a trace.
    [EvConnect] is a [pymysql.connect] that handed back the handle [h],
    [EvConnectRefused] one that raised. *)
Inductive event : Type :=
| EvConnect (h : handle) (host user passwd database charset : string)
| EvConnectRefused (host user passwd database charset : string)
| EvPing (h : handle)
| EvCommit (h : handle)
| EvRollback (h : handle)
| EvCloseConnection (h : handle)
| EvCursor (h : handle) (c : cursor)
| EvExecute (c : cursor) (sql : string) (b : binds)
| EvFetchAll (c : cursor)
| EvCloseCursor (c : cursor)
| EvCacheRetrieve (key : string)
| EvCacheStore (key : string) (data : result) (ttl : option Z)
| EvCachePurge (key : string)
| EvCacheClose
| EvCacheClearLocal.

Inductive memcache_client : Type := Memcache.

(** The attributes of a [DataStoreMySQL] object.  [self.__mysql] written in
    the body of [RDBMSBase] is the attribute [_RDBMSBase__mysql], the one
    written in the body of [DataStoreMySQL] is [_DataStoreMySQL__mysql]:
    Python mangles a double-underscore name with the class whose body it
    appears in.  [_RDBMSBase__mysql] is [None] as long as the attribute
    does not exist. *)
Record Session : Type := {
  _connection_name : option string;
  _charset : string;
  _db_name : option string;
  _memcache : option memcache_client;
  _memcache_key : option string;
  _memcache_ttl : option Z;
  _ping_interval : Z;
  _inactive_since : Z;
  requests : nat;
  hits : nat;
  persistent : bool;
  _RDBMSBase__mysql : option (option handle);
  _DataStoreMySQL__mysql : option handle;
  _DataStoreMySQL__cursor : option cursor;
  _DataStoreMySQL__row_count : option Z;
  _DataStoreMySQL__last_row_id : option Z
}.

Definition with_connection_name (v : option string) (s : Session) : Session :=
  {|
     _connection_name := v;
     _charset := _charset s;
     _db_name := _db_name s;
     _memcache := _memcache s;
     _memcache_key := _memcache_key s;
     _memcache_ttl := _memcache_ttl s;
     _ping_interval := _ping_interval s;
     _inactive_since := _inactive_since s;
     requests := requests s;
     hits := hits s;
     persistent := persistent s;
     _RDBMSBase__mysql := _RDBMSBase__mysql s;
     _DataStoreMySQL__mysql := _DataStoreMySQL__mysql s;
     _DataStoreMySQL__cursor := _DataStoreMySQL__cursor s;
     _DataStoreMySQL__row_count := _DataStoreMySQL__row_count s;
     _DataStoreMySQL__last_row_id := _DataStoreMySQL__last_row_id s
  |}.

Definition with_charset (v : string) (s : Session) : Session :=
  {|
     _connection_name := _connection_name s;
     _charset := v;
     _db_name := _db_name s;
     _memcache := _memcache s;
     _memcache_key := _memcache_key s;
     _memcache_ttl := _memcache_ttl s;
     _ping_interval := _ping_interval s;
     _inactive_since := _inactive_since s;
     requests := requests s;
     hits := hits s;
     persistent := persistent s;
     _RDBMSBase__mysql := _RDBMSBase__mysql s;
     _DataStoreMySQL__mysql := _DataStoreMySQL__mysql s;
     _DataStoreMySQL__cursor := _DataStoreMySQL__cursor s;
     _DataStoreMySQL__row_count := _DataStoreMySQL__row_count s;
     _DataStoreMySQL__last_row_id := _DataStoreMySQL__last_row_id s
  |}.

Definition with_db_name (v : option string) (s : Session) : Session :=
  {|
     _connection_name := _connection_name s;
     _charset := _charset s;
     _db_name := v;
     _memcache := _memcache s;
     _memcache_key := _memcache_key s;
     _memcache_ttl := _memcache_ttl s;
     _ping_interval := _ping_interval s;
     _inactive_since := _inactive_since s;
     requests := requests s;
     hits := hits s;
     persistent := persistent s;
     _RDBMSBase__mysql := _RDBMSBase__mysql s;
     _DataStoreMySQL__mysql := _DataStoreMySQL__mysql s;
     _DataStoreMySQL__cursor := _DataStoreMySQL__cursor s;
     _DataStoreMySQL__row_count := _DataStoreMySQL__row_count s;
     _DataStoreMySQL__last_row_id := _DataStoreMySQL__last_row_id s
  |}.

Definition with_memcache (v : option memcache_client) (s : Session) : Session :=
  {|
     _connection_name := _connection_name s;
     _charset := _charset s;
     _db_name := _db_name s;
     _memcache := v;
     _memcache_key := _memcache_key s;
     _memcache_ttl := _memcache_ttl s;
     _ping_interval := _ping_interval s;
     _inactive_since := _inactive_since s;
     requests := requests s;
     hits := hits s;
     persistent := persistent s;
     _RDBMSBase__mysql := _RDBMSBase__mysql s;
     _DataStoreMySQL__mysql := _DataStoreMySQL__mysql s;
     _DataStoreMySQL__cursor := _DataStoreMySQL__cursor s;
     _DataStoreMySQL__row_count := _DataStoreMySQL__row_count s;
     _DataStoreMySQL__last_row_id := _DataStoreMySQL__last_row_id s
  |}.

Definition with_memcache_key (v : option string) (s : Session) : Session :=
  {|
     _connection_name := _connection_name s;
     _charset := _charset s;
     _db_name := _db_name s;
     _memcache := _memcache s;
     _memcache_key := v;
     _memcache_ttl := _memcache_ttl s;
     _ping_interval := _ping_interval s;
     _inactive_since := _inactive_since s;
     requests := requests s;
     hits := hits s;
     persistent := persistent s;
     _RDBMSBase__mysql := _RDBMSBase__mysql s;
     _DataStoreMySQL__mysql := _DataStoreMySQL__mysql s;
     _DataStoreMySQL__cursor := _DataStoreMySQL__cursor s;
     _DataStoreMySQL__row_count := _DataStoreMySQL__row_count s;
     _DataStoreMySQL__last_row_id := _DataStoreMySQL__last_row_id s
  |}.

Definition with_memcache_ttl (v : option Z) (s : Session) : Session :=
  {|
     _connection_name := _connection_name s;
     _charset := _charset s;
     _db_name := _db_name s;
     _memcache := _memcache s;
     _memcache_key := _memcache_key s;
     _memcache_ttl := v;
     _ping_interval := _ping_interval s;
     _inactive_since := _inactive_since s;
     requests := requests s;
     hits := hits s;
     persistent := persistent s;
     _RDBMSBase__mysql := _RDBMSBase__mysql s;
     _DataStoreMySQL__mysql := _DataStoreMySQL__mysql s;
     _DataStoreMySQL__cursor := _DataStoreMySQL__cursor s;
     _DataStoreMySQL__row_count := _DataStoreMySQL__row_count s;
     _DataStoreMySQL__last_row_id := _DataStoreMySQL__last_row_id s
  |}.

Definition with_inactive_since (v : Z) (s : Session) : Session :=
  {|
     _connection_name := _connection_name s;
     _charset := _charset s;
     _db_name := _db_name s;
     _memcache := _memcache s;
     _memcache_key := _memcache_key s;
     _memcache_ttl := _memcache_ttl s;
     _ping_interval := _ping_interval s;
     _inactive_since := v;
     requests := requests s;
     hits := hits s;
     persistent := persistent s;
     _RDBMSBase__mysql := _RDBMSBase__mysql s;
     _DataStoreMySQL__mysql := _DataStoreMySQL__mysql s;
     _DataStoreMySQL__cursor := _DataStoreMySQL__cursor s;
     _DataStoreMySQL__row_count := _DataStoreMySQL__row_count s;
     _DataStoreMySQL__last_row_id := _DataStoreMySQL__last_row_id s
  |}.

Definition with_requests (v : nat) (s : Session) : Session :=
  {|
     _connection_name := _connection_name s;
     _charset := _charset s;
     _db_name := _db_name s;
     _memcache := _memcache s;
     _memcache_key := _memcache_key s;
     _memcache_ttl := _memcache_ttl s;
     _ping_interval := _ping_interval s;
     _inactive_since := _inactive_since s;
     requests := v;
     hits := hits s;
     persistent := persistent s;
     _RDBMSBase__mysql := _RDBMSBase__mysql s;
     _DataStoreMySQL__mysql := _DataStoreMySQL__mysql s;
     _DataStoreMySQL__cursor := _DataStoreMySQL__cursor s;
     _DataStoreMySQL__row_count := _DataStoreMySQL__row_count s;
     _DataStoreMySQL__last_row_id := _DataStoreMySQL__last_row_id s
  |}.

Definition with_hits (v : nat) (s : Session) : Session :=
  {|
     _connection_name := _connection_name s;
     _charset := _charset s;
     _db_name := _db_name s;
     _memcache := _memcache s;
     _memcache_key := _memcache_key s;
     _memcache_ttl := _memcache_ttl s;
     _ping_interval := _ping_interval s;
     _inactive_since := _inactive_since s;
     requests := requests s;
     hits := v;
     persistent := persistent s;
     _RDBMSBase__mysql := _RDBMSBase__mysql s;
     _DataStoreMySQL__mysql := _DataStoreMySQL__mysql s;
     _DataStoreMySQL__cursor := _DataStoreMySQL__cursor s;
     _DataStoreMySQL__row_count := _DataStoreMySQL__row_count s;
     _DataStoreMySQL__last_row_id := _DataStoreMySQL__last_row_id s
  |}.

Definition with_persistent (v : bool) (s : Session) : Session :=
  {|
     _connection_name := _connection_name s;
     _charset := _charset s;
     _db_name := _db_name s;
     _memcache := _memcache s;
     _memcache_key := _memcache_key s;
     _memcache_ttl := _memcache_ttl s;
     _ping_interval := _ping_interval s;
     _inactive_since := _inactive_since s;
     requests := requests s;
     hits := hits s;
     persistent := v;
     _RDBMSBase__mysql := _RDBMSBase__mysql s;
     _DataStoreMySQL__mysql := _DataStoreMySQL__mysql s;
     _DataStoreMySQL__cursor := _DataStoreMySQL__cursor s;
     _DataStoreMySQL__row_count := _DataStoreMySQL__row_count s;
     _DataStoreMySQL__last_row_id := _DataStoreMySQL__last_row_id s
  |}.

Definition with_RDBMSBase__mysql (v : option (option handle)) (s : Session) : Session :=
  {|
     _connection_name := _connection_name s;
     _charset := _charset s;
     _db_name := _db_name s;
     _memcache := _memcache s;
     _memcache_key := _memcache_key s;
     _memcache_ttl := _memcache_ttl s;
     _ping_interval := _ping_interval s;
     _inactive_since := _inactive_since s;
     requests := requests s;
     hits := hits s;
     persistent := persistent s;
     _RDBMSBase__mysql := v;
     _DataStoreMySQL__mysql := _DataStoreMySQL__mysql s;
     _DataStoreMySQL__cursor := _DataStoreMySQL__cursor s;
     _DataStoreMySQL__row_count := _DataStoreMySQL__row_count s;
     _DataStoreMySQL__last_row_id := _DataStoreMySQL__last_row_id s
  |}.

Definition with_DataStoreMySQL__mysql (v : option handle) (s : Session) : Session :=
  {|
     _connection_name := _connection_name s;
     _charset := _charset s;
     _db_name := _db_name s;
     _memcache := _memcache s;
     _memcache_key := _memcache_key s;
     _memcache_ttl := _memcache_ttl s;
     _ping_interval := _ping_interval s;
     _inactive_since := _inactive_since s;
     requests := requests s;
     hits := hits s;
     persistent := persistent s;
     _RDBMSBase__mysql := _RDBMSBase__mysql s;
     _DataStoreMySQL__mysql := v;
     _DataStoreMySQL__cursor := _DataStoreMySQL__cursor s;
     _DataStoreMySQL__row_count := _DataStoreMySQL__row_count s;
     _DataStoreMySQL__last_row_id := _DataStoreMySQL__last_row_id s
  |}.

Definition with_DataStoreMySQL__cursor (v : option cursor) (s : Session) : Session :=
  {|
     _connection_name := _connection_name s;
     _charset := _charset s;
     _db_name := _db_name s;
     _memcache := _memcache s;
     _memcache_key := _memcache_key s;
     _memcache_ttl := _memcache_ttl s;
     _ping_interval := _ping_interval s;
     _inactive_since := _inactive_since s;
     requests := requests s;
     hits := hits s;
     persistent := persistent s;
     _RDBMSBase__mysql := _RDBMSBase__mysql s;
     _DataStoreMySQL__mysql := _DataStoreMySQL__mysql s;
     _DataStoreMySQL__cursor := v;
     _DataStoreMySQL__row_count := _DataStoreMySQL__row_count s;
     _DataStoreMySQL__last_row_id := _DataStoreMySQL__last_row_id s
  |}.

Definition with_DataStoreMySQL__row_count (v : option Z) (s : Session) : Session :=
  {|
     _connection_name := _connection_name s;
     _charset := _charset s;
     _db_name := _db_name s;
     _memcache := _memcache s;
     _memcache_key := _memcache_key s;
     _memcache_ttl := _memcache_ttl s;
     _ping_interval := _ping_interval s;
     _inactive_since := _inactive_since s;
     requests := requests s;
     hits := hits s;
     persistent := persistent s;
     _RDBMSBase__mysql := _RDBMSBase__mysql s;
     _DataStoreMySQL__mysql := _DataStoreMySQL__mysql s;
     _DataStoreMySQL__cursor := _DataStoreMySQL__cursor s;
     _DataStoreMySQL__row_count := v;
     _DataStoreMySQL__last_row_id := _DataStoreMySQL__last_row_id s
  |}.

Definition with_DataStoreMySQL__last_row_id (v : option Z) (s : Session) : Session :=
  {|
     _connection_name := _connection_name s;
     _charset := _charset s;
     _db_name := _db_name s;
     _memcache := _memcache s;
     _memcache_key := _memcache_key s;
     _memcache_ttl := _memcache_ttl s;
     _ping_interval := _ping_interval s;
     _inactive_since := _inactive_since s;
     requests := requests s;
     hits := hits s;
     persistent := persistent s;
     _RDBMSBase__mysql := _RDBMSBase__mysql s;
     _DataStoreMySQL__mysql := _DataStoreMySQL__mysql s;
     _DataStoreMySQL__cursor := _DataStoreMySQL__cursor s;
     _DataStoreMySQL__row_count := _DataStoreMySQL__row_count s;
     _DataStoreMySQL__last_row_id := v
  |}.

(** The state of the collaborators. *)
Record World : Type := {
  trace : list event;
  next_handle : handle;
  next_cursor : cursor;
  cache : gmap string result
}.

(** What a call reads from outside: flags, clock, configuration and the
    behaviour of the driver. *)
Record Env : Type := {
  env_unit_test : bool;
  env_cli : bool;
  now : Z;
  config_data_store : string;
  mysql_connection_data : gmap string (string * string * string);
  driver_connect_ok : bool;
  driver_ping_ok : bool;
  driver_execute : string -> binds -> exec_outcome;
  py_repr : list value -> string
}.

(** ** The monad of methods: state of [self] and of the world, exceptions *)

Inductive outcome (A : Type) : Type :=
| Return (a : A)
| Raise (e : exn).

Arguments Return {A} a.
Arguments Raise {A} e.

Definition M (A : Type) : Type := Session -> World -> outcome A * Session * World.

Definition ret {A} (a : A) : M A := fun s w => (Return a, s, w).

Definition bind {A B} (m : M A) (k : A -> M B) : M B :=
  fun s w =>
    match m s w with
    | (Return a, s', w') => k a s' w'
    | (Raise e, s', w') => (Raise e, s', w')
    end.

Definition raise {A} (e : exn) : M A := fun s w => (Raise e, s, w).

Definition get_self : M Session := fun s w => (Return s, s, w).

Definition get_world : M World := fun s w => (Return w, s, w).

Definition modify_self (f : Session -> Session) : M unit :=
  fun s w => (Return tt, f s, w).

Definition modify_world (f : World -> World) : M unit :=
  fun s w => (Return tt, s, f w).

Declare Scope method_scope.
Delimit Scope method_scope with method.
Bind Scope method_scope with M.

Notation "'let*' x ':=' m 'in' k" := (bind m (fun x => k))
  (at level 10, x name, m at level 100, k at level 200) : method_scope.
Notation "m ';;' k" := (bind m (fun _ => k))
  (at level 100, k at level 200, right associativity) : method_scope.

Local Open Scope method_scope.

Definition record_event (ev : event) (w : World) : World :=
  {| trace := ev :: trace w; next_handle := next_handle w;
     next_cursor := next_cursor w; cache := cache w |}.

Definition log (ev : event) : M unit := modify_world (record_event ev).

Definition fresh_handle : M handle :=
  fun s w =>
    (Return (next_handle w), s,
     {| trace := trace w; next_handle := S (next_handle w);
        next_cursor := next_cursor w; cache := cache w |}).

Definition fresh_cursor : M cursor :=
  fun s w =>
    (Return (next_cursor w), s,
     {| trace := trace w; next_handle := next_handle w;
        next_cursor := S (next_cursor w); cache := cache w |}).

Definition set_cache (c : gmap string result) : M unit :=
  modify_world (fun w =>
    {| trace := trace w; next_handle := next_handle w;
       next_cursor := next_cursor w; cache := c |}).

(** The result, the object and the world a call leaves. *)
Definition outcome_of {A} (r : outcome A * Session * World) : outcome A := r.1.1.
Definition self_of {A} (r : outcome A * Session * World) : Session := r.1.2.
Definition world_of {A} (r : outcome A * Session * World) : World := r.2.

(** ** The methods of [RDBMSBase] *)

Module RDBMSBase.

Section Methods.

Context (E : Env).

(** Modelled from the spec: the cache client of
    [tinyAPI.base.data_store.memcache], whose source is not part of the
    files at hand.  [retrieve(key)] gives the value stored under the key or
    none, [store(key, value, ttl, ttl)] stores it, [purge(key)] evicts
    it. *)
Definition Memcache_retrieve (key : string) : M (option result) :=
  log (EvCacheRetrieve key);;
  let* w := get_world in
  ret (cache w !! key).

(** Modelled from the spec: see [Memcache_retrieve]. *)
Definition Memcache_store (key : string) (data : result) (ttl : option Z) : M unit :=
  log (EvCacheStore key data ttl);;
  let* w := get_world in
  set_cache (<[key := data]> (cache w)).

(** Modelled from the spec: see [Memcache_retrieve]. *)
Definition Memcache_purge (key : string) : M unit :=
  log (EvCachePurge key);;
  let* w := get_world in
  set_cache (delete key (cache w)).

(** [if self._memcache is None: self._memcache = Memcache()] *)
Definition ensure_memcache : M unit :=
  let* s := get_self in
  match _memcache s with
  | None => modify_self (with_memcache (Some Memcache))
  | Some _ => ret tt
  end.

Definition memcache (key : string) (ttl : Z) : M unit :=
  modify_self (with_memcache_key (Some key));;
  modify_self (with_memcache_ttl (Some ttl)).

Definition memcache_purge : M unit :=
  let* s := get_self in
  match _memcache_key s with
  | None => ret tt
  | Some key =>
      if env_unit_test E then ret tt
      else ensure_memcache;; Memcache_purge key
  end.

Definition memcache_retrieve : M (option result) :=
  let* s := get_self in
  match _memcache_key s with
  | None => ret None
  | Some key =>
      if env_unit_test E then ret None
      else ensure_memcache;; Memcache_retrieve key
  end.

Definition memcache_store (data : result) : M unit :=
  let* s := get_self in
  match _memcache_key s with
  | None => ret tt
  | Some key =>
      if env_unit_test E then ret tt
      else ensure_memcache;; Memcache_store key data (_memcache_ttl s)
  end.

Definition _reset_memcache : M unit :=
  modify_self (with_memcache_key None);;
  modify_self (with_memcache_ttl None).

(** [RDBMSBase.select_db]: the assignment to [self.__mysql] stands in the
    body of [RDBMSBase]. *)
Definition select_db_self (connection db : string) (s : Session) : Session :=
  let s1 :=
    if bool_decide (_connection_name s ≠ Some connection)
       || bool_decide (_db_name s ≠ Some db)
    then with_RDBMSBase__mysql (Some None) s
    else s in
  with_db_name (Some db) (with_connection_name (Some connection) s1).

Definition select_db (connection db : string) : M unit :=
  modify_self (select_db_self connection db).

Definition set_charset (charset : string) : M unit :=
  modify_self (with_charset charset).

Definition set_persistent (p : bool) : M unit :=
  modify_self (with_persistent p).

End Methods.

End RDBMSBase.

(** ** The methods of [DataStoreMySQL] *)

Module DataStoreMySQL.

Import RDBMSBase.

Section Methods.

Context (E : Env).

(** [DataStoreMySQL()]: the attributes the constructors set. *)
Definition new_DataStoreMySQL : Session :=
  {| _connection_name := None;
     _charset := "utf8";
     _db_name := None;
     _memcache := None;
     _memcache_key := None;
     _memcache_ttl := None;
     _ping_interval := 300;
     _inactive_since := now E;
     requests := 0%nat;
     hits := 0%nat;
     persistent := if env_cli E then false else true;
     _RDBMSBase__mysql := None;
     _DataStoreMySQL__mysql := None;
     _DataStoreMySQL__cursor := None;
     _DataStoreMySQL__row_count := None;
     _DataStoreMySQL__last_row_id := None |}.

Definition __close_cursor : M unit :=
  let* s := get_self in
  match _DataStoreMySQL__cursor s with
  | Some c =>
      log (EvCloseCursor c);;
      modify_self (with_DataStoreMySQL__cursor None)
  | None => ret tt
  end.

(** [self.__mysql.ping(True)] *)
Definition driver_ping (h : handle) : M unit :=
  log (EvPing h);;
  if driver_ping_ok E then ret tt
  else raise (DriverError "ping failed").

(** A name that is [None] or empty is falsy. *)
Definition truthy_name (n : option string) : option string :=
  match n with
  | Some EmptyString => None
  | _ => n
  end.

Definition connect : M unit :=
  let* s0 := get_self in
  (if persistent s0 then modify_self (with_requests (S (requests s0)))
   else ret tt);;
  let* s := get_self in
  match _DataStoreMySQL__mysql s with
  | Some h =>
      if persistent s then
        if (_ping_interval s - 3 <=? now E - _inactive_since s)
        then driver_ping h;;
             modify_self (with_inactive_since (now E))
        else modify_self (with_hits (S (hits s)))
      else ret tt
  | None =>
      match truthy_name (_connection_name s) with
      | None =>
          raise (DataStoreException
            ("cannot connect to MySQL because a connection name has not "
             ++ "been provided"))
      | Some name =>
          match mysql_connection_data E !! name with
          | None =>
              raise (DataStoreException
                "the MySQL connection name you provided is invalid")
          | Some (host, user, passwd) =>
              match truthy_name (_db_name s) with
              | None =>
                  raise (DataStoreException
                    ("cannot connection to MySQL because no database name was "
                     ++ "selected"))
              | Some db =>
                  if driver_connect_ok E then
                    let* h := fresh_handle in
                    log (EvConnect h host user passwd db (_charset s));;
                    modify_self (with_DataStoreMySQL__mysql (Some h));;
                    modify_self (with_inactive_since (now E))
                  else
                    log (EvConnectRefused host user passwd db (_charset s));;
                    raise (DriverError "connect failed")
              end
          end
      end
  end.

Definition __get_cursor : M cursor :=
  let* s := get_self in
  match _DataStoreMySQL__cursor s with
  | Some c => ret c
  | None =>
      match _DataStoreMySQL__mysql s with
      | None => raise AttributeError
      | Some h =>
          let* c := fresh_cursor in
          log (EvCursor h c);;
          modify_self (with_DataStoreMySQL__cursor (Some c));;
          ret c
      end
  end.

Definition commit (ignore_exceptions : bool) : M unit :=
  let* s := get_self in
  match _DataStoreMySQL__mysql s with
  | None =>
      if negb ignore_exceptions then
        raise (DataStoreException
          ("transaction cannot be committed because a database "
           ++ "connection has not been established yet"))
      else ret tt
  | Some _ =>
      if env_unit_test E then ret tt
      else
        connect;;
        let* s' := get_self in
        match _DataStoreMySQL__mysql s' with
        | Some h => log (EvCommit h)
        | None => raise AttributeError
        end
  end.

Definition rollback (ignore_exceptions : bool) : M unit :=
  let* s := get_self in
  match _DataStoreMySQL__mysql s with
  | None =>
      if negb ignore_exceptions then
        raise (DataStoreException
          ("transaction cannot be rolled back because a database "
           ++ "connection has not been established yet"))
      else ret tt
  | Some _ =>
      connect;;
      let* s' := get_self in
      match _DataStoreMySQL__mysql s' with
      | Some h => log (EvRollback h)
      | None => raise AttributeError
      end
  end.

Definition close : M unit :=
  __close_cursor;;
  log EvCacheClearLocal;;
  let* s := get_self in
  match _DataStoreMySQL__mysql s with
  | Some h =>
      if persistent s then ret tt
      else log (EvCloseConnection h);;
           modify_self (with_DataStoreMySQL__mysql None)
  | None => ret tt
  end;;
  let* s' := get_self in
  match _memcache s' with
  | Some _ =>
      if persistent s' then ret tt
      else log EvCacheClose;;
           modify_self (with_memcache None)
  | None => ret tt
  end.

Definition get_last_row_id (s : Session) : option Z :=
  _DataStoreMySQL__last_row_id s.

Definition get_row_count (s : Session) : option Z :=
  _DataStoreMySQL__row_count s.

(** *** Building statements *)

(** A Python [dict] keeps its items in insertion order; [keys()],
    [values()] and [items()] walk them in that one order. *)
Definition dict := list (string * value).

(** The test both [__get_binds] and [__get_values] make on [str(value)]. *)
Definition is_literal (v : value) : bool :=
  let str_value := Py.str v in
  Re.match_current_timestamp str_value
  || bool_decide (str_value = "current_date").

Definition bind_of (key : string) (v : value) : value :=
  if is_literal v then v
  else if Re.search_binary_prefix key then VStr "_binary %s"
  else VStr "%s".

Definition __get_binds (data : dict) : list value :=
  map (fun kv => bind_of kv.1 kv.2) data.

Definition __get_values (data : list value) : list value :=
  filter (fun v => is_literal v = false) data.

(** [key + ' = ' + binds[index]] *)
Definition assignment (binds_ : list value) (index : nat) (key : string) : option string :=
  match binds_ !! index with
  | Some (VStr b) => Some (key ++ " = " ++ b)
  | _ => None
  end.

Fixpoint assignments (binds_ : list value) (index : nat) (keys : list string) : option (list string) :=
  match keys with
  | [] => Some []
  | key :: rest =>
      match assignment binds_ index key with
      | Some a => cons a <$> assignments binds_ (S index) rest
      | None => None
      end
  end.

(** [None] stands for the [TypeError] of adding a non-string. *)
Definition __convert_to_prepared (separator : string) (data : dict) : option string :=
  String.concat separator <$> assignments (__get_binds data) 0 (map fst data).

Definition __extract_not_null_column (message : string) : option string :=
  Re.match_not_null message.

Definition __format_query_execution_error (sql message : string) (b : binds) : string :=
  "execution of this query:" ++ String Re.newline (String Re.newline "")
  ++ sql
  ++ String Re.newline (String Re.newline "")
  ++ match b with Some l => py_repr E l | None => "" end
  ++ String Re.newline (String Re.newline "") ++ "produced this error:"
  ++ String Re.newline (String Re.newline "")
  ++ message.

(** The column names [create] lists. *)
Definition create_keys (data : dict) : list string :=
  map (fun kv => Re.sub_binary kv.1) data.

(** The statement [create] builds; [None] for the [TypeError] of joining a
    non-string. *)
Definition create_sql (target : string) (data : dict) : option string :=
  match Py.join ", " (__get_binds data) with
  | Some placeholders =>
      Some ("insert into " ++ target ++ "("
            ++ String.concat ", " (create_keys data)
            ++ ")" ++ " values (" ++ placeholders ++ ")")
  | None => None
  end.

(** The statement and the binds [delete] builds. *)
Definition delete_sql (target : string) (data : dict) : option (string * binds) :=
  let sql := "delete from " ++ target in
  if (0 <? length data)%nat then
    match __convert_to_prepared ", " data with
    | Some clause => Some (sql ++ " where " ++ clause, Some (map snd data))
    | None => None
    end
  else Some (sql, None).

(** *** Executing statements *)

(** [raise ColumnCannotBeNullException(self.__extract_not_null_column(message))]:
    [group] on a failed match is an [AttributeError]. *)
Definition raise_not_null {A} (message : string) : M A :=
  match __extract_not_null_column message with
  | Some column => raise (ColumnCannotBeNullException column)
  | None => raise AttributeError
  end.

Definition create (target : string) (data : dict) (return_insert_id : bool) : M (option Z) :=
  if (length data =? 0)%nat then ret None
  else
    match create_sql target data with
    | None => raise TypeError
    | Some sql =>
        let binds_ := __get_binds data in
        let vals := __get_values (map snd data) in
        connect;;
        let* c := __get_cursor in
        log (EvExecute c sql (Some vals));;
        match driver_execute E sql (Some vals) with
        | ExecIntegrityError errno message =>
            if errno =? 1048 then raise_not_null message
            else if errno =? 1062 then
              raise (DataStoreDuplicateKeyException message)
            else if errno =? 1452 then
              raise (DataStoreForeignKeyException message)
            else raise (IntegrityError errno message)
        | ExecProgrammingError errno message =>
            raise (DataStoreException
              (__format_query_execution_error sql message (Some binds_)))
        | ExecInternalError errno message =>
            raise (InternalError errno message)
        | ExecOtherError message => raise (DriverError message)
        | ExecOk rowcount lastrowid _ =>
            modify_self (with_DataStoreMySQL__row_count (Some rowcount));;
            let id := if return_insert_id then lastrowid else None in
            __close_cursor;;
            ret id
        end
    end.

Definition delete (target : string) (data : dict) : M bool :=
  match delete_sql target data with
  | None => raise TypeError
  | Some (sql, b) =>
      connect;;
      let* c := __get_cursor in
      log (EvExecute c sql b);;
      match driver_execute E sql b with
      | ExecIntegrityError errno message =>
          raise (IntegrityError errno message)
      | ExecInternalError errno message =>
          raise (InternalError errno message)
      | ExecProgrammingError errno message =>
          raise (ProgrammingError errno message)
      | ExecOtherError message => raise (DriverError message)
      | ExecOk rowcount _ _ =>
          modify_self (with_DataStoreMySQL__row_count (Some rowcount));;
          memcache_purge E;;
          __close_cursor;;
          _reset_memcache;;
          ret true
      end
  end.

(** The handler of [query] for [IntegrityError] and [InternalError];
    [original] is re-raised when the code is not one of the four. *)
Definition query_handler {A} (original : exn) (sql : string) (b : binds)
    (errno : Z) (message : string) : M A :=
  if errno =? 1048 then raise_not_null message
  else if errno =? 1062 then raise (DataStoreDuplicateKeyException message)
  else if errno =? 1271 then raise (IllegalMixOfCollationsException sql b)
  else if errno =? 1452 then raise (DataStoreForeignKeyException message)
  else raise original.

(** [results = cursor.fetchall(); if results == (): results = []] *)
Definition normalize_fetched (fetched : rows) : rows :=
  match fetched with
  | RowsTuple [] => RowsList []
  | _ => fetched
  end.

Definition query (sql : string) (b : binds) : M result :=
  let* results_from_cache := memcache_retrieve E in
  match results_from_cache with
  | Some cached =>
      _reset_memcache;;
      ret cached
  | None =>
      connect;;
      let is_select := Re.match_select sql || Re.match_show sql in
      let* c := __get_cursor in
      log (EvExecute c sql b);;
      match driver_execute E sql b with
      | ExecIntegrityError errno message =>
          query_handler (IntegrityError errno message) sql b errno message
      | ExecInternalError errno message =>
          query_handler (InternalError errno message) sql b errno message
      | ExecProgrammingError errno message =>
          raise (DataStoreException
            (__format_query_execution_error sql message b))
      | ExecOtherError message => raise (DriverError message)
      | ExecOk rowcount lastrowid fetched =>
          modify_self (with_DataStoreMySQL__row_count (Some rowcount));;
          modify_self (with_DataStoreMySQL__last_row_id lastrowid);;
          let* results :=
            (if is_select then
               log (EvFetchAll c);;
               let results := RRows (normalize_fetched fetched) in
               memcache_store E results;;
               ret results
             else ret RTrue) in
          __close_cursor;;
          _reset_memcache;;
          ret results
      end
  end.

(** [len(True)] is a [TypeError]; [records[index]] out of range is an
    [IndexError]. *)
Definition nth (index : Z) (sql : string) (b : binds) : M (option record) :=
  let* records := query sql b in
  match records with
  | RTrue => raise TypeError
  | RRows r =>
      let items := rows_items r in
      if index <? Z.of_nat (length items) then
        match Py.index items index with
        | Some rec => ret (Some rec)
        | None => raise IndexError
        end
      else ret None
  end.

Definition count (sql : string) (b : binds) : M (option value) :=
  let* rec := nth 0 sql b in
  match rec with
  | None => ret None
  | Some fields =>
      match fields with
      | (_, v) :: _ => ret (Some v)
      | [] => raise IndexError
      end
  end.

End Methods.

End DataStoreMySQL.

(** ** The registry: [DataStoreProvider] *)

Module DataStoreProvider.

(** Objects live in a heap and are known by their address; two references
    are the identical object exactly when the addresses are equal.
    [_DataStoreProvider__persistent] is the class attribute [__persistent],
    one dictionary shared by all providers; [_thread_local_data] gives each
    thread its own attributes.  The names a thread-local object carries of
    its own (its class attributes) are not connection names. *)
Record Registry : Type := {
  heap : list Session;
  _DataStoreProvider__persistent : gmap string (gmap Z nat);
  _thread_local_data : gmap nat (gmap string nat);
  hit_ratio : list (nat * nat * Z)
}.

Inductive returned (A : Type) : Type :=
| Returned (a : A)
| Raised (e : exn).

Arguments Returned {A} a.
Arguments Raised {A} e.

Section Methods.

Context (E : Env).

(** The attributes of the current thread. *)
Definition thread_attrs (tid : nat) (R : Registry) : gmap string nat :=
  default ∅ (_thread_local_data R !! tid).

(** [setattr(_thread_local_data, connection, dsh)] *)
Definition setattr_thread_local (tid : nat) (connection : string) (dsh : nat)
    (R : Registry) : Registry :=
  {| heap := heap R;
     _DataStoreProvider__persistent := _DataStoreProvider__persistent R;
     _thread_local_data :=
       <[tid := <[connection := dsh]> (thread_attrs tid R)]>
         (_thread_local_data R);
     hit_ratio := hit_ratio R |}.

(** A new object: its address is the next free one. *)
Definition allocate (s : Session) (R : Registry) : nat * Registry :=
  (length (heap R),
   {| heap := heap R ++ [s];
      _DataStoreProvider__persistent := _DataStoreProvider__persistent R;
      _thread_local_data := _thread_local_data R;
      hit_ratio := hit_ratio R |}).

Definition set_persistent_map (m : gmap string (gmap Z nat)) (R : Registry) : Registry :=
  {| heap := heap R;
     _DataStoreProvider__persistent := m;
     _thread_local_data := _thread_local_data R;
     hit_ratio := hit_ratio R |}.

(** The slots of a connection name in [__persistent]. *)
Definition slots_of (connection : string) (R : Registry) : gmap Z nat :=
  default ∅ (_DataStoreProvider__persistent R !! connection).

(** The branch taken when the thread has no attribute for the name. *)
Definition bind_new_handle (self_pid : Z) (tid : nat) (connection : string)
    (persistent_ : bool) (R : Registry) : nat * Registry :=
  if persistent_ then
    let '(dsh, R1) :=
      match slots_of connection R !! self_pid with
      | Some dsh => (dsh, R)
      | None =>
          let '(dsh, R') := allocate (DataStoreMySQL.new_DataStoreMySQL E) R in
          (dsh,
           set_persistent_map
             (<[connection := <[self_pid := dsh]> (slots_of connection R')]>
                (_DataStoreProvider__persistent R')) R')
      end in
    (dsh, setattr_thread_local tid connection dsh R1)
  else
    let '(dsh, R1) :=
      allocate (with_persistent false (DataStoreMySQL.new_DataStoreMySQL E)) R in
    (dsh, setattr_thread_local tid connection dsh R1).

(** [self] is a provider whose [pid] is [self_pid]; [tid] is the calling
    thread.  The result is the address of the session. *)
Definition get_data_store_handle (self_pid : Z) (tid : nat)
    (connection db : string) (persistent_ : bool) (R : Registry)
    : returned nat * Registry :=
  if bool_decide (config_data_store E = "mysql") then
    let R1 :=
      match _DataStoreProvider__persistent R !! connection with
      | None =>
          set_persistent_map
            (<[connection := ∅]> (_DataStoreProvider__persistent R)) R
      | Some _ => R
      end in
    let '(dsh, R2) :=
      match thread_attrs tid R1 !! connection with
      | None => bind_new_handle self_pid tid connection persistent_ R1
      | Some dsh => (dsh, R1)
      end in
    match heap R2 !! dsh with
    | None => (Raised AttributeError, R2)
    | Some obj =>
        (Returned dsh,
         {| heap := <[dsh := RDBMSBase.select_db_self connection db obj]> (heap R2);
            _DataStoreProvider__persistent := _DataStoreProvider__persistent R2;
            _thread_local_data := _thread_local_data R2;
            hit_ratio := (requests obj, hits obj, self_pid) :: hit_ratio R2 |})
    end
  else
    (Raised (DataStoreException
       "configured data store is not currently supported"), R).

End Methods.

(** Every reference the registry holds is to an object of the heap. *)
Definition well_formed (R : Registry) : Prop :=
  (forall (tid : nat) (attrs : gmap string nat) (connection : string) (dsh : nat),
     _thread_local_data R !! tid = Some attrs ->
     attrs !! connection = Some dsh ->
     (dsh < length (heap R))%nat)
  /\ (forall (connection : string) (slots : gmap Z nat) (pid : Z) (dsh : nat),
        _DataStoreProvider__persistent R !! connection = Some slots ->
        slots !! pid = Some dsh ->
        (dsh < length (heap R))%nat).

End DataStoreProvider.

(** ** Further methods of [DataStoreMySQL] and the functions of the module *)

Module DataStoreMySQLMore.

Import RDBMSBase.

(** What [one] hands back or raises: [RuntimeError] is raised by [one]
    alone. *)
Inductive one_outcome : Type :=
| OneReturn (rec : option record) (obj : option (gmap string value))
| OneRaise (e : exn)
| OneRuntimeError (message : string).

Section Methods.

Context (E : Env).

Definition ping : M unit :=
  let* s := get_self in
  match _DataStoreMySQL__mysql s with
  | Some h =>
      if (_ping_interval s - 3 <=? now E - _inactive_since s)
      then DataStoreMySQL.driver_ping E h;;
           modify_self (with_inactive_since (now E))
      else ret tt
  | None => ret tt
  end.

(** [for key, value in record.items(): setattr(obj, key, value)] on an
    object known by its attributes. *)
Definition setattr_all (rec : record) (obj : gmap string value) : gmap string value :=
  foldl (fun attrs kv => <[kv.1 := kv.2]> attrs) obj rec.

(** [RDBMSBase.one]: [obj] is the object to fill, when there is one. *)
Definition one (sql : string) (b : binds) (obj : option (gmap string value))
    (s : Session) (w : World) : one_outcome * Session * World :=
  match DataStoreMySQL.nth E 0 sql b s w with
  | (Raise e, s', w') => (OneRaise e, s', w')
  | (Return rec, s', w') =>
      match obj with
      | None => (OneReturn rec None, s', w')
      | Some attrs =>
          match rec with
          | None =>
              (OneRuntimeError "no data is present to assign to object",
               s', w')
          | Some fields =>
              (OneReturn rec (Some (setattr_all fields attrs)), s', w')
          end
      end
  end.

(** [autonomous_tx_start]: the new object it returns. *)
Definition autonomous_tx_start (connection db : string) : Session :=
  select_db_self connection db
    (with_persistent false (DataStoreMySQL.new_DataStoreMySQL E)).

(** [assert_is_dsh] passes on every object modelled here, each being a
    [DataStoreMySQL]. *)
Definition autonomous_tx_stop_commit (ignore_exceptions : bool) : M unit :=
  DataStoreMySQL.commit E ignore_exceptions;;
  DataStoreMySQL.close.

Definition autonomous_tx_stop_rollback (ignore_exceptions : bool) : M unit :=
  DataStoreMySQL.rollback E ignore_exceptions;;
  DataStoreMySQL.close.

End Methods.

End DataStoreMySQLMore.

(** ** Observations on a call *)

(** What the cache lookup at the head of [query] answers. *)
Definition cache_answer (E : Env) (s : Session) (w : World) : option result :=
  match outcome_of (RDBMSBase.memcache_retrieve E s w) with
  | Return o => o
  | Raise _ => None
  end.

(** Whether the [connect] that [query] runs after a cache miss returns. *)
Definition connects (E : Env) (s : Session) (w : World) : bool :=
  let r := RDBMSBase.memcache_retrieve E s w in
  match outcome_of (DataStoreMySQL.connect E (self_of r) (world_of r)) with
  | Return _ => true
  | Raise _ => false
  end.

(** The statements handed to [cursor.execute], most recent first. *)
Definition executed (t : list event) : list (string * binds) :=
  omap (fun ev =>
          match ev with
          | EvExecute _ sql b => Some (sql, b)
          | _ => None
          end) t.


(** One method call after another on the same object. *)
Definition and_then {A B} (m : M A) (k : M B) : M B := (m;; k)%method.

(** ** Specifications of the steps a method is made of *)

(** [wp m s w Q]: the call [m] made on the object [s] in the world [w]
    ends in a result, an object and a world that satisfy [Q]. *)
Definition wp {A} (m : M A) (s : Session) (w : World)
    (Q : outcome A -> Session -> World -> Prop) : Prop :=
  Q (outcome_of (m s w)) (self_of (m s w)) (world_of (m s w)).

(** The attributes the executor keeps between the steps of one call. *)
Definition same_executor_state (s s' : Session) : Prop :=
  _memcache_key s' = _memcache_key s
  /\ _memcache_ttl s' = _memcache_ttl s
  /\ _DataStoreMySQL__cursor s' = _DataStoreMySQL__cursor s
  /\ _DataStoreMySQL__row_count s' = _DataStoreMySQL__row_count s
  /\ _DataStoreMySQL__last_row_id s' = _DataStoreMySQL__last_row_id s.

(** A step that neither executes a statement nor touches the cache. *)
Definition same_statements (w w' : World) : Prop :=
  executed (trace w') = executed (trace w) /\ cache w' = cache w.

Definition connect_post (s : Session) (w : World)
    (o : outcome unit) (s' : Session) (w' : World) : Prop :=
  same_executor_state s s'
  /\ same_statements w w'
  /\ (forall h, _DataStoreMySQL__mysql s = Some h ->
                _DataStoreMySQL__mysql s' = Some h)
  /\ (o = Return tt -> is_Some (_DataStoreMySQL__mysql s')).

Definition get_cursor_post (s : Session) (w : World)
    (o : outcome cursor) (s' : Session) (w' : World) : Prop :=
  _memcache_key s' = _memcache_key s
  /\ _memcache_ttl s' = _memcache_ttl s
  /\ _DataStoreMySQL__row_count s' = _DataStoreMySQL__row_count s
  /\ _DataStoreMySQL__last_row_id s' = _DataStoreMySQL__last_row_id s
  /\ same_statements w w'
  /\ match o with
     | Return c =>
         _DataStoreMySQL__cursor s' = Some c
         /\ match _DataStoreMySQL__cursor s with
            | Some c0 => c = c0
            | None => True
            end
     | Raise _ =>
         _DataStoreMySQL__cursor s' = _DataStoreMySQL__cursor s
         /\ _DataStoreMySQL__mysql s = None
     end.

Definition close_cursor_post (s : Session) (w : World)
    (o : outcome unit) (s' : Session) (w' : World) : Prop :=
  o = Return tt
  /\ _DataStoreMySQL__cursor s' = None
  /\ _memcache_key s' = _memcache_key s
  /\ _memcache_ttl s' = _memcache_ttl s
  /\ _DataStoreMySQL__row_count s' = _DataStoreMySQL__row_count s
  /\ _DataStoreMySQL__last_row_id s' = _DataStoreMySQL__last_row_id s
  /\ same_statements w w'.

Definition reset_memcache_post (s : Session) (w : World)
    (o : outcome unit) (s' : Session) (w' : World) : Prop :=
  o = Return tt
  /\ _memcache_key s' = None
  /\ _memcache_ttl s' = None
  /\ _DataStoreMySQL__cursor s' = _DataStoreMySQL__cursor s
  /\ _DataStoreMySQL__row_count s' = _DataStoreMySQL__row_count s
  /\ _DataStoreMySQL__last_row_id s' = _DataStoreMySQL__last_row_id s
  /\ w' = w.

(** The cache after [memcache_purge]. *)
Definition purged (E : Env) (s : Session) (c : gmap string result) : gmap string result :=
  match _memcache_key s with
  | Some key => if env_unit_test E then c else base.delete key c
  | None => c
  end.

Definition memcache_purge_post (E : Env) (s : Session) (w : World)
    (o : outcome unit) (s' : Session) (w' : World) : Prop :=
  o = Return tt
  /\ same_executor_state s s'
  /\ executed (trace w') = executed (trace w)
  /\ cache w' = purged E s (cache w).

Definition memcache_retrieve_post (E : Env) (s : Session) (w : World)
    (o : outcome (option result)) (s' : Session) (w' : World) : Prop :=
  (exists answer, o = Return answer)
  /\ same_executor_state s s'
  /\ same_statements w w'
  /\ _DataStoreMySQL__mysql s' = _DataStoreMySQL__mysql s.

Definition memcache_store_post (s : Session) (w : World)
    (o : outcome unit) (s' : Session) (w' : World) : Prop :=
  o = Return tt
  /\ same_executor_state s s'
  /\ executed (trace w') = executed (trace w).

(** The counters after a step that does not count, and after one that
    counts at most one request and one hit. *)
Definition same_counters (s s' : Session) : Prop :=
  requests s' = requests s /\ hits s' = hits s.

Definition counted (s s' : Session) : Prop :=
  same_counters s s'
  \/ (requests s' = S (requests s)
      /\ (hits s' = hits s \/ hits s' = S (hits s))).

(** ** Concrete inputs *)

Module Sample.

(** The configuration of [tinyAPI_config.py], a driver that accepts every
    statement, the clock at 1000 seconds. *)
Definition env : Env :=
  {| env_unit_test := false;
     env_cli := false;
     now := 1000;
     config_data_store := "mysql";
     mysql_connection_data := {[ "local" := ("", "", "") ]};
     driver_connect_ok := true;
     driver_ping_ok := true;
     driver_execute := fun _ _ => ExecOk 1 (Some 7) (RowsTuple []);
     py_repr := fun _ => "" |}.

Definition under_unit_test (E : Env) : Env :=
  {| env_unit_test := true;
     env_cli := env_cli E;
     now := now E;
     config_data_store := config_data_store E;
     mysql_connection_data := mysql_connection_data E;
     driver_connect_ok := driver_connect_ok E;
     driver_ping_ok := driver_ping_ok E;
     driver_execute := driver_execute E;
     py_repr := py_repr E |}.

Definition with_driver (f : string -> binds -> exec_outcome) (E : Env) : Env :=
  {| env_unit_test := env_unit_test E;
     env_cli := env_cli E;
     now := now E;
     config_data_store := config_data_store E;
     mysql_connection_data := mysql_connection_data E;
     driver_connect_ok := driver_connect_ok E;
     driver_ping_ok := driver_ping_ok E;
     driver_execute := f;
     py_repr := py_repr E |}.

Definition world0 : World :=
  {| trace := []; next_handle := 0%nat; next_cursor := 0%nat; cache := ∅ |}.

(** A new session selected on [("local", "db1")]. *)
Definition selected : Session :=
  RDBMSBase.select_db_self "local" "db1" (DataStoreMySQL.new_DataStoreMySQL env).

(** The same session once [connect] has opened handle 0. *)
Definition connected : Session :=
  self_of (DataStoreMySQL.connect env selected world0).

Definition world1 : World :=
  world_of (DataStoreMySQL.connect env selected world0).

Definition cached_rows : result := RRows (RowsList [[("n", VInt 1)]]).

(** A world whose cache holds a value under ["k"]. *)
Definition world_cached : World :=
  {| trace := trace world1; next_handle := next_handle world1;
     next_cursor := next_cursor world1;
     cache := {[ "k" := cached_rows ]} |}.

(** The connected session with the directive ["k"], 60 seconds, armed. *)
Definition armed : Session :=
  with_memcache_ttl (Some 60) (with_memcache_key (Some "k") connected).

(** Drivers that refuse every statement. *)
Definition env_not_null : Env :=
  with_driver
    (fun _ _ => ExecIntegrityError 1048 "Column 'email' cannot be null") env.

Definition env_duplicate : Env :=
  with_driver (fun _ _ => ExecIntegrityError 1062 "Duplicate entry") env.

Definition env_unit_test : Env := under_unit_test env.

Definition empty_registry : DataStoreProvider.Registry :=
  {| DataStoreProvider.heap := [];
     DataStoreProvider._DataStoreProvider__persistent := ∅;
     DataStoreProvider._thread_local_data := ∅;
     DataStoreProvider.hit_ratio := [] |}.

End Sample.

(** ** Further inputs *)

Module Scenario.

(** The sample environment an hour later: a handle last used at 1000 is
    stale. *)
Definition later : Env :=
  {| env_unit_test := env_unit_test Sample.env;
     env_cli := env_cli Sample.env;
     now := 4600;
     config_data_store := config_data_store Sample.env;
     mysql_connection_data := mysql_connection_data Sample.env;
     driver_connect_ok := driver_connect_ok Sample.env;
     driver_ping_ok := driver_ping_ok Sample.env;
     driver_execute := driver_execute Sample.env;
     py_repr := py_repr Sample.env |}.

Definition two_rows : rows :=
  RowsList [[("id", VInt 1); ("name", VStr "a")];
            [("id", VInt 2); ("name", VStr "b")]].

(** A driver that answers every statement with [two_rows]. *)
Definition env_rows : Env :=
  Sample.with_driver (fun _ _ => ExecOk 2 None two_rows) Sample.env.

(** An environment whose configured backend is not MySQL. *)
Definition env_postgres : Env :=
  {| env_unit_test := env_unit_test Sample.env;
     env_cli := env_cli Sample.env;
     now := now Sample.env;
     config_data_store := "postgres";
     mysql_connection_data := mysql_connection_data Sample.env;
     driver_connect_ok := driver_connect_ok Sample.env;
     driver_ping_ok := driver_ping_ok Sample.env;
     driver_execute := driver_execute Sample.env;
     py_repr := py_repr Sample.env |}.

(** The session of an autonomous transaction, once connected. *)
Definition autonomous : Session :=
  self_of (DataStoreMySQL.connect Sample.env
             (DataStoreMySQLMore.autonomous_tx_start Sample.env "local" "db1")
             Sample.world0).

Definition autonomous_world : World :=
  world_of (DataStoreMySQL.connect Sample.env
              (DataStoreMySQLMore.autonomous_tx_start Sample.env "local" "db1")
              Sample.world0).

Definition fields : DataStoreMySQL.dict :=
  [("name", VStr "a.txt"); ("_binary body", VStr "xyz");
   ("created", VStr "current_timestamp()")].

End Scenario.

(** * Properties *)

(** ** Reasoning about calls *)

Ltac unfold_monad :=
  unfold wp, and_then, log, record_event, set_cache, fresh_handle,
    fresh_cursor, modify_self, modify_world, get_self, get_world, bind, ret,
    raise, outcome_of, self_of, world_of in *.

Ltac run_step :=
  unfold_monad; repeat case_match; simplify_eq/=.

(** The rules of [wp] for the operations of the monad. *)
Lemma wp_bind {A B} (m : M A) (k : A -> M B) s w Q :
  wp m s w (fun o s' w' =>
              match o with
              | Return a => wp (k a) s' w' Q
              | Raise e => Q (Raise e) s' w'
              end) ->
  wp (bind m k) s w Q.
Proof.
  unfold wp, bind, outcome_of, self_of, world_of.
  by destruct (m s w) as [[[a|e] s'] w'].
Qed.

Lemma wp_mono {A} (m : M A) s w (Q Q' : outcome A -> Session -> World -> Prop) :
  wp m s w Q -> (forall o s' w', Q o s' w' -> Q' o s' w') -> wp m s w Q'.
Proof. unfold wp. auto. Qed.

Lemma wp_ret {A} (a : A) s w Q : Q (Return a) s w -> wp (ret a) s w Q.
Proof. done. Qed.

Lemma wp_raise {A} (e : exn) s w (Q : outcome A -> Session -> World -> Prop) :
  Q (Raise e) s w -> wp (raise e) s w Q.
Proof. done. Qed.

Lemma wp_log ev s w Q : Q (Return tt) s (record_event ev w) -> wp (log ev) s w Q.
Proof. done. Qed.

Lemma wp_modify_self f s w Q : Q (Return tt) (f s) w -> wp (modify_self f) s w Q.
Proof. done. Qed.

Lemma wp_get_self s w Q : Q (Return s) s w -> wp get_self s w Q.
Proof. done. Qed.

Lemma wp_observe {A} (m : M A) s w (Q : outcome A -> Session -> World -> Prop) :
  wp m s w Q -> Q (outcome_of (m s w)) (self_of (m s w)) (world_of (m s w)).
Proof. done. Qed.

Ltac wp_call spec :=
  apply wp_bind; eapply wp_mono; [apply spec | cbv beta; intros [?|?] ? ? ?].

Tactic Notation "wp_step" constr(spec) "as" ident(H) :=
  apply wp_bind; eapply wp_mono;
  [apply spec | cbv beta; intros [?|?] ? ? H].

Ltac wp_prim :=
  apply wp_bind;
  first [apply wp_log | apply wp_modify_self | apply wp_get_self | apply wp_ret].

Ltac observe m s w :=
  pattern (outcome_of (m s w)), (self_of (m s w)), (world_of (m s w));
  apply (wp_observe m s w).

Ltac as_wp :=
  cbv zeta;
  lazymatch goal with
  | |- context [outcome_of (?m ?s ?w)] => observe m s w
  | |- context [self_of (?m ?s ?w)] => observe m s w
  | |- context [world_of (?m ?s ?w)] => observe m s w
  end.

(** ** The steps of the executor *)

Lemma same_executor_state_refl s : same_executor_state s s.
Proof. by repeat split. Qed.

Lemma same_executor_state_trans s1 s2 s3 :
  same_executor_state s1 s2 -> same_executor_state s2 s3 ->
  same_executor_state s1 s3.
Proof. unfold same_executor_state. intuition congruence. Qed.

Lemma same_statements_refl w : same_statements w w.
Proof. by split. Qed.

Lemma same_statements_trans w1 w2 w3 :
  same_statements w1 w2 -> same_statements w2 w3 -> same_statements w1 w3.
Proof. unfold same_statements. intuition congruence. Qed.

#[local] Hint Resolve same_executor_state_refl same_statements_refl : core.

(** What each step keeps and what it changes. *)
Lemma connect_spec E s w :
  wp (DataStoreMySQL.connect E) s w (connect_post s w).
Proof.
  unfold DataStoreMySQL.connect, DataStoreMySQL.driver_ping, connect_post,
    same_executor_state, same_statements.
  run_step; repeat split; intros; simplify_eq/=; eauto.
Qed.

Lemma get_cursor_spec s w :
  wp (DataStoreMySQL.__get_cursor) s w (get_cursor_post s w).
Proof.
  unfold DataStoreMySQL.__get_cursor, get_cursor_post, same_statements.
  run_step; repeat split; intros; simplify_eq/=; eauto.
Qed.

Lemma close_cursor_spec s w :
  wp (DataStoreMySQL.__close_cursor) s w (close_cursor_post s w).
Proof.
  unfold DataStoreMySQL.__close_cursor, close_cursor_post, same_statements.
  run_step; repeat split; intros; simplify_eq/=; eauto.
Qed.

Lemma reset_memcache_spec s w :
  wp (RDBMSBase._reset_memcache) s w (reset_memcache_post s w).
Proof.
  unfold RDBMSBase._reset_memcache, reset_memcache_post.
  run_step; repeat split; by destruct w.
Qed.

Lemma memcache_purge_spec E s w :
  wp (RDBMSBase.memcache_purge E) s w (memcache_purge_post E s w).
Proof.
  unfold RDBMSBase.memcache_purge, RDBMSBase.ensure_memcache,
    RDBMSBase.Memcache_purge, memcache_purge_post, purged, same_executor_state.
  run_step; repeat split; intros; simplify_eq/=; eauto.
Qed.

Lemma memcache_retrieve_spec E s w :
  wp (RDBMSBase.memcache_retrieve E) s w (memcache_retrieve_post E s w).
Proof.
  unfold RDBMSBase.memcache_retrieve, RDBMSBase.ensure_memcache,
    RDBMSBase.Memcache_retrieve, memcache_retrieve_post,
    same_executor_state, same_statements.
  run_step; repeat split; intros; simplify_eq/=; eauto.
Qed.

Lemma memcache_store_spec E data s w :
  wp (RDBMSBase.memcache_store E data) s w (memcache_store_post s w).
Proof.
  unfold RDBMSBase.memcache_store, RDBMSBase.ensure_memcache,
    RDBMSBase.Memcache_store, memcache_store_post, same_executor_state.
  run_step; repeat split; intros; simplify_eq/=; eauto.
Qed.

Ltac frames :=
  unfold connect_post, get_cursor_post, close_cursor_post, reset_memcache_post,
    memcache_purge_post, memcache_retrieve_post, memcache_store_post,
    same_executor_state, same_statements in *;
  cbv beta iota in * |-;
  destruct_and?.

(** The handlers always raise, and leave the object and the world as they
    are. *)
Lemma raise_not_null_spec {A} message s w (Q : outcome A -> Session -> World -> Prop) :
  (forall e, Q (Raise e) s w) -> wp (DataStoreMySQL.raise_not_null message) s w Q.
Proof.
  intros HQ. unfold DataStoreMySQL.raise_not_null.
  case_match; apply wp_raise, HQ.
Qed.

Lemma query_handler_spec {A} original sql b errno message s w
    (Q : outcome A -> Session -> World -> Prop) :
  (forall e, Q (Raise e) s w) ->
  wp (DataStoreMySQL.query_handler original sql b errno message) s w Q.
Proof.
  intros HQ. unfold DataStoreMySQL.query_handler.
  repeat case_match; try (apply wp_raise, HQ). by apply raise_not_null_spec.
Qed.

Lemma executed_record_execute c sql b w :
  executed (trace (record_event (EvExecute c sql b) w))
  = (sql, b) :: executed (trace w).
Proof. reflexivity. Qed.

(** ** The patterns *)

Example sub_binary_prefix : Re.sub_binary "_binary payload" = "payload".
Proof. reflexivity. Qed.

Example sub_binary_twice : Re.sub_binary "_binary a_binary b" = "ab".
Proof. reflexivity. Qed.

Example match_select_paren : Re.match_select "(SELECT 1)" = true.
Proof. reflexivity. Qed.

Example match_select_glued : Re.match_select "selection" = false.
Proof. reflexivity. Qed.

Example match_not_null_greedy :
  Re.match_not_null "Column 'a' cannot be null' cannot be null"
  = Some "a' cannot be null".
Proof. reflexivity. Qed.

Example index_last : Py.index [1; 2; 3]%nat (-1) = Some 3%nat.
Proof. reflexivity. Qed.

Example index_below : Py.index [1; 2; 3]%nat (-4) = None.
Proof. reflexivity. Qed.

(** The column is the one the driver names, whatever it is, as long as it
    holds no line break. *)
Lemma greedy_group_column (col : string) :
  (forall c, In c (list_ascii_of_string col) -> c <> Re.newline) ->
  Re.greedy_group "' cannot be null" (col ++ "' cannot be null") = Some col.
Proof.
  induction col as [|c col IH]; intros Hnl; [reflexivity|].
  change (String c col ++ "' cannot be null")
    with (String c (col ++ "' cannot be null")).
  cbn [Re.greedy_group].
  destruct (Ascii.eqb_spec c Re.newline) as [->|_].
  { exfalso. by apply (Hnl Re.newline); [left|]. }
  rewrite IH; [reflexivity|].
  intros c' Hc'. apply Hnl. by right.
Qed.

Lemma match_not_null_column (col : string) :
  (forall c, In c (list_ascii_of_string col) -> c <> Re.newline) ->
  Re.match_not_null ("Column '" ++ col ++ "' cannot be null") = Some col.
Proof. intros Hnl. unfold Re.match_not_null. cbn. by apply greedy_group_column. Qed.

(** ** Sessions: [select_db], [commit], [rollback] *)

(** [select_db] never writes the attribute that holds the handle. *)
Lemma select_db_keeps_DataStoreMySQL__mysql (connection db : string) (s : Session) :
  _DataStoreMySQL__mysql (RDBMSBase.select_db_self connection db s)
  = _DataStoreMySQL__mysql s.
Proof. unfold RDBMSBase.select_db_self. by case_match. Qed.

Example connected_handle :
  _DataStoreMySQL__mysql Sample.connected = Some 0%nat
  /\ trace Sample.world1 = [EvConnect 0%nat "" "" "" "db1" "utf8"].
Proof. vm_compute. done. Qed.

(** C1: on a session connected to [("local", "db1")] through handle 0,
    [select_db("local", "db2")] sets the attribute [_RDBMSBase__mysql] to
    none and leaves [_DataStoreMySQL__mysql], the handle [connect] looks
    at, on handle 0; the following [connect] returns without opening a
    connection: no event is added to the trace, whose only connection is
    the one to [db1]. *)
Theorem select_db_does_not_invalidate_handle :
  let s := RDBMSBase.select_db_self "local" "db2" Sample.connected in
  let r := DataStoreMySQL.connect Sample.env s Sample.world1 in
  _db_name s = Some "db2"
  /\ _RDBMSBase__mysql s = Some None
  /\ _DataStoreMySQL__mysql s = Some 0%nat
  /\ outcome_of r = Return tt
  /\ _DataStoreMySQL__mysql (self_of r) = Some 0%nat
  /\ trace (world_of r) = [EvConnect 0%nat "" "" "" "db1" "utf8"].
Proof. vm_compute. repeat split. Qed.

(** With a handle in place [connect] can only fail in the ping. *)
Lemma connect_returns_on_handle E s w h :
  _DataStoreMySQL__mysql s = Some h ->
  driver_ping_ok E = true ->
  outcome_of (DataStoreMySQL.connect E s w) = Return tt.
Proof.
  intros Hh Hp. unfold DataStoreMySQL.connect, DataStoreMySQL.driver_ping.
  unfold_monad. repeat case_match; simplify_eq/=; congruence.
Qed.




(** ** [query] *)






(** A [connect] that returns leaves a handle. *)
Lemma connects_established E s w :
  connects E s w = true ->
  is_Some (_DataStoreMySQL__mysql
             (self_of (DataStoreMySQL.connect E
                (self_of (RDBMSBase.memcache_retrieve E s w))
                (world_of (RDBMSBase.memcache_retrieve E s w))))).
Proof.
  unfold connects. intros Hc.
  pose proof (connect_spec E (self_of (RDBMSBase.memcache_retrieve E s w))
                (world_of (RDBMSBase.memcache_retrieve E s w))) as S.
  unfold wp in S. destruct S as (_ & _ & _ & S). apply S.
  destruct (outcome_of _) as [[]|]; done.
Qed.

(** C6: when the call is not answered from the cache, [connect] returns
    and the driver fails the statement with the integrity error 1048 and
    the message [Column 'email' cannot be null], [query] raises
    [ColumnCannotBeNullException] carrying the column name [email]. *)
Theorem query_raises_not_null_column E sql b s w :
  cache_answer E s w = None ->
  connects E s w = true ->
  driver_execute E sql b
    = ExecIntegrityError 1048 "Column 'email' cannot be null" ->
  outcome_of (DataStoreMySQL.query E sql b s w)
  = Raise (ColumnCannotBeNullException "email").
Proof.
  intros Hmiss Hconn Hdrv.
  pose proof (connects_established E s w Hconn) as [h Hh].
  unfold cache_answer, connects in *.
  pose proof (memcache_retrieve_spec E s w) as S1. unfold wp in S1.
  unfold DataStoreMySQL.query. unfold bind at 1.
  destruct (RDBMSBase.memcache_retrieve E s w) as [[o1 s1] w1].
  cbn [outcome_of self_of world_of fst snd] in *.
  destruct S1 as ([answer ->] & _). subst answer.
  unfold bind at 1.
  destruct (DataStoreMySQL.connect E s1 w1) as [[[[]|e] s2] w2];
    cbn [outcome_of self_of world_of fst snd] in *; [|done].
  unfold bind at 1, DataStoreMySQL.__get_cursor at 1.
  unfold_monad. rewrite Hh.
  destruct (_DataStoreMySQL__cursor s2); cbn; rewrite Hdrv; reflexivity.
Qed.

(** The same on a new session selected on the sample configuration. *)
Lemma query_raises_not_null_column_witness :
  outcome_of (DataStoreMySQL.query Sample.env_not_null
                "insert into users(email) values (%s)" (Some [VNone])
                Sample.selected Sample.world0)
  = Raise (ColumnCannotBeNullException "email").
Proof.
  apply query_raises_not_null_column; vm_compute; reflexivity.
Defined.

(** ** [create] *)

Lemma pretty_N_go_not_c (x : N) (s s' : string) :
  s <> String "c" s' -> pretty_N_go x s <> String "c" s'.
Proof.
  revert s. induction (N.lt_wf_0 x) as [x _ IH]; intros s Hs.
  assert (x = 0 \/ 0 < x)%N as [->|Hx] by lia.
  - by rewrite pretty_N_go_0.
  - rewrite pretty_N_go_step by done. apply IH.
    { by apply N.div_lt. }
    unfold pretty_N_char. by repeat case_match.
Qed.

Lemma pretty_Z_not_c (z : Z) (s' : string) : pretty z <> String "c" s'.
Proof.
  destruct z as [|p|p]; [done| |done].
  unfold pretty, pretty_Z, pretty, pretty_positive, pretty, pretty_N.
  case_decide; [done|]. by apply pretty_N_go_not_c.
Qed.

Lemma is_literal_starts_with_c (v : value) :
  DataStoreMySQL.is_literal v = true -> exists s', Py.str v = String "c" s'.
Proof.
  unfold DataStoreMySQL.is_literal, Re.match_current_timestamp.
  intros [Hp|He]%orb_prop.
  - destruct (Py.str v) as [|a r]; [done|].
    change (String.prefix "current_timestamp" (String a r))
      with (if ascii_dec "c" a
            then String.prefix "urrent_timestamp" r else false) in Hp.
    destruct (ascii_dec "c" a) as [<-|]; [by eexists|done].
  - apply bool_decide_eq_true in He. rewrite He. by eexists.
Qed.

(** Only a string is ever embedded in the statement. *)
Lemma is_literal_str (v : value) :
  DataStoreMySQL.is_literal v = true -> v = VStr (Py.str v).
Proof.
  intros [s' Hs]%is_literal_starts_with_c.
  destruct v as [|[]|z|s]; try done.
  by destruct (pretty_Z_not_c z s').
Qed.








Example create_sql_sample :
  DataStoreMySQL.create_sql "files"
    [("name", VStr "a.txt"); ("_binary body", VStr "xyz");
     ("created", VStr "current_timestamp()")]
  = Some "insert into files(name, body, created) values (%s, _binary %s, current_timestamp())"
  /\ DataStoreMySQL.__get_values
       (map snd [("name", VStr "a.txt"); ("_binary body", VStr "xyz");
                 ("created", VStr "current_timestamp()")])
     = [VStr "a.txt"; VStr "xyz"].
Proof. vm_compute. by split. Qed.

(** The statement [create] hands to the driver is the one built above,
    with the values that are not embedded. *)
Lemma create_executes_statement E target data rid s w sql :
  data <> [] ->
  DataStoreMySQL.create_sql target data = Some sql ->
  outcome_of (DataStoreMySQL.connect E s w) = Return tt ->
  executed (trace (world_of (DataStoreMySQL.create E target data rid s w)))
  = (sql, Some (DataStoreMySQL.__get_values (map snd data)))
    :: executed (trace w).
Proof.
  intros Hne Hsql Hc. as_wp. unfold DataStoreMySQL.create.
  destruct data as [|kv rest]; [done|]. cbn [length Nat.eqb].
  rewrite Hsql. apply wp_bind.
  pose proof (connect_spec E s w) as S1. unfold wp in S1. unfold wp at 1.
  destruct (DataStoreMySQL.connect E s w) as [[[[]|e] s1] w1];
    cbn [outcome_of self_of world_of fst snd] in *; [|done].
  destruct S1 as (F1 & W1 & _ & Hsome). destruct (Hsome eq_refl) as [h Hh].
  wp_call get_cursor_spec; [|frames; exfalso; congruence].
  wp_prim.
  assert (executed (trace (record_event
            (EvExecute a sql (Some (DataStoreMySQL.__get_values (map snd (kv :: rest))))) w'))
          = (sql, Some (DataStoreMySQL.__get_values (map snd (kv :: rest))))
            :: executed (trace w)) as Hexec.
  { rewrite executed_record_execute. frames.
    repeat match goal with
           | H : executed (trace _) = _ |- _ => rewrite H; clear H
           end.
    reflexivity. }
  destruct (driver_execute E _ _).
  - wp_prim. wp_step close_cursor_spec as Hclose; [|frames; done].
    apply wp_ret. destruct Hclose as (_ & _ & _ & _ & _ & _ & Hw & _).
    by rewrite Hw.
  - repeat case_match; try apply raise_not_null_spec; try intros ?;
      try apply wp_raise; done.
  - by apply wp_raise.
  - by apply wp_raise.
  - by apply wp_raise.
Qed.

(** A successful [create] returns the identifier the driver reports, when
    asked for it, and stores the row count. *)
Lemma create_returns_insert_id E target data rid s w sql rowcount lastrowid fetched :
  data <> [] ->
  DataStoreMySQL.create_sql target data = Some sql ->
  outcome_of (DataStoreMySQL.connect E s w) = Return tt ->
  driver_execute E sql (Some (DataStoreMySQL.__get_values (map snd data)))
    = ExecOk rowcount lastrowid fetched ->
  let r := DataStoreMySQL.create E target data rid s w in
  outcome_of r = Return (if rid then lastrowid else None)
  /\ DataStoreMySQL.get_row_count (self_of r) = Some rowcount
  /\ _DataStoreMySQL__cursor (self_of r) = None.
Proof.
  intros Hne Hsql Hc Hd. as_wp. unfold DataStoreMySQL.create.
  destruct data as [|kv rest]; [done|]. cbn [length Nat.eqb].
  rewrite Hsql. apply wp_bind.
  pose proof (connect_spec E s w) as S1. unfold wp in S1. unfold wp at 1.
  destruct (DataStoreMySQL.connect E s w) as [[[[]|e] s1] w1];
    cbn [outcome_of self_of world_of fst snd] in *; [|done].
  destruct S1 as (_ & _ & _ & Hsome). destruct (Hsome eq_refl) as [h Hh].
  wp_call get_cursor_spec; [|frames; exfalso; congruence].
  wp_prim. rewrite Hd. wp_prim.
  wp_step close_cursor_spec as Hclose; [|frames; done].
  apply wp_ret. unfold DataStoreMySQL.get_row_count.
  destruct Hclose as (_ & Hcur & _ & _ & Hrc & _). by rewrite Hrc.
Qed.

(** C10: [create] never writes the stored last-insert-id; whatever the
    call does, returning or raising, [get_last_row_id] answers after it
    what it answered before. *)
Theorem create_keeps_last_row_id E target data rid s w :
  DataStoreMySQL.get_last_row_id (self_of (DataStoreMySQL.create E target data rid s w))
  = DataStoreMySQL.get_last_row_id s.
Proof.
  change (wp (DataStoreMySQL.create E target data rid) s w
            (fun _ s' _ => _DataStoreMySQL__last_row_id s' = _DataStoreMySQL__last_row_id s)).
  unfold DataStoreMySQL.create.
  destruct (length data =? 0)%nat; [done|].
  destruct (DataStoreMySQL.create_sql target data); [|done].
  wp_call connect_spec; [|by frames].
  wp_call get_cursor_spec; [|frames; congruence].
  wp_prim.
  destruct (driver_execute E _ _).
  - wp_prim. wp_call close_cursor_spec; frames; simpl in *; [apply wp_ret|]; congruence.
  - repeat case_match; try apply raise_not_null_spec; try intros ?; try apply wp_raise;
      frames; simpl; congruence.
  - apply wp_raise. frames; simpl; congruence.
  - apply wp_raise. frames; simpl; congruence.
  - apply wp_raise. frames; simpl; congruence.
Qed.

(** [query] is the method that stores the last-insert-id. *)
Example query_assigns_last_row_id :
  let r := DataStoreMySQL.query Sample.env "insert into t(id) values (%s)"
             (Some [VInt 1]) Sample.selected Sample.world0 in
  DataStoreMySQL.get_last_row_id Sample.selected = None
  /\ outcome_of r = Return RTrue
  /\ DataStoreMySQL.get_last_row_id (self_of r) = Some 7.
Proof. vm_compute. repeat split. Qed.

(** ** [delete] *)

(** C8, amended: [delete] with an empty mapping builds exactly
    [delete from target], without binds; when [connect] returns and the
    driver accepts the statement, it is the one statement executed, the
    entry under the armed key is evicted from the cache unless the
    test-isolation flag is set (then, and when no key is armed, the cache
    is left as it is), the cursor is closed, the directive cleared and
    [True] returned. *)
Theorem delete_without_keys E target s w rowcount lastrowid fetched :
  outcome_of (DataStoreMySQL.connect E s w) = Return tt ->
  driver_execute E ("delete from " ++ target) None
    = ExecOk rowcount lastrowid fetched ->
  DataStoreMySQL.delete_sql target [] = Some ("delete from " ++ target, None)
  /\ let r := DataStoreMySQL.delete E target [] s w in
     outcome_of r = Return true
     /\ executed (trace (world_of r))
        = ("delete from " ++ target, None) :: executed (trace w)
     /\ cache (world_of r)
        = match _memcache_key s with
          | Some key =>
              if env_unit_test E then cache w else base.delete key (cache w)
          | None => cache w
          end
     /\ _DataStoreMySQL__cursor (self_of r) = None
     /\ _memcache_key (self_of r) = None
     /\ _memcache_ttl (self_of r) = None.
Proof.
  intros Hc Hd. split; [reflexivity|].
  change (match _memcache_key s with
          | Some key =>
              if env_unit_test E then cache w else base.delete key (cache w)
          | None => cache w
          end) with (purged E s (cache w)).
  as_wp. unfold DataStoreMySQL.delete.
  change (DataStoreMySQL.delete_sql target [])
    with (Some ("delete from " ++ target, @None (list value))).
  cbv iota beta.
  apply wp_bind.
  pose proof (connect_spec E s w) as S1. unfold wp in S1. unfold wp at 1.
  destruct (DataStoreMySQL.connect E s w) as [[[[]|e] s1] w1];
    cbn [outcome_of self_of world_of fst snd] in *; [|done].
  destruct S1 as (F1 & W1 & _ & Hsome). destruct (Hsome eq_refl) as [h Hh].
  wp_call get_cursor_spec; [|frames; exfalso; congruence].
  wp_prim. rewrite Hd. wp_prim.
  wp_call memcache_purge_spec; [|frames; done].
  wp_call close_cursor_spec; [|frames; done].
  wp_call reset_memcache_spec; [|frames; done].
  apply wp_ret. frames. subst.
  rewrite executed_record_execute in *.
  unfold purged in *.
  cbn [_memcache_key with_DataStoreMySQL__row_count] in *.
  replace (_memcache_key s') with (_memcache_key s) in * by congruence.
  cbn [cache record_event] in *.
  repeat match goal with
         | H : executed (trace _) = _ |- _ => rewrite H; clear H
         | H : cache _ = _ |- _ => rewrite H; clear H
         end.
  repeat split; congruence.
Qed.

(** The same on the armed sample session and a cache that holds its key. *)
Lemma delete_without_keys_witness :
  DataStoreMySQL.delete_sql "sessions" [] = Some ("delete from sessions", None)
  /\ let r := DataStoreMySQL.delete Sample.env "sessions" []
                Sample.armed Sample.world_cached in
     outcome_of r = Return true
     /\ executed (trace (world_of r))
        = ("delete from sessions", None) :: executed (trace Sample.world_cached)
     /\ cache (world_of r) = base.delete "k" (cache Sample.world_cached)
     /\ _DataStoreMySQL__cursor (self_of r) = None
     /\ _memcache_key (self_of r) = None
     /\ _memcache_ttl (self_of r) = None.
Proof.
  apply (delete_without_keys Sample.env "sessions" Sample.armed
           Sample.world_cached 1 (Some 7) (RowsTuple []));
    vm_compute; reflexivity.
Defined.

(** C8 as stated fails: with the test-isolation flag set, a successful
    [delete] leaves the entry under the armed key in the cache. *)
Lemma delete_keeps_cache_entry_under_unit_test :
  let r := DataStoreMySQL.delete Sample.env_unit_test "sessions" []
             Sample.armed Sample.world_cached in
  _memcache_key Sample.armed = Some "k"
  /\ outcome_of r = Return true
  /\ executed (trace (world_of r)) = [("delete from sessions", None)]
  /\ cache (world_of r) !! "k" = Some Sample.cached_rows.
Proof. vm_compute. repeat split. Qed.

Example delete_purges_cache_entry :
  let r := DataStoreMySQL.delete Sample.env "sessions" []
             Sample.armed Sample.world_cached in
  outcome_of r = Return true /\ cache (world_of r) !! "k" = None.
Proof. vm_compute. repeat split. Qed.

(** ** [nth] *)

Lemma index_from_the_end {A} (l : list A) (i : Z) :
  - Z.of_nat (length l) <= i < 0 ->
  Py.index l i = l !! Z.to_nat (Z.of_nat (length l) + i)
  /\ is_Some (l !! Z.to_nat (Z.of_nat (length l) + i)).
Proof.
  intros Hi. unfold Py.index.
  replace (0 <=? i) with false by lia.
  replace (i <? 0) with true by lia.
  replace (- Z.of_nat (length l) <=? i) with true by lia.
  split; [reflexivity|]. apply lookup_lt_is_Some. lia.
Qed.

Lemma nth_on_rows E index sql b s w r :
  outcome_of (DataStoreMySQL.query E sql b s w) = Return (RRows r) ->
  outcome_of (DataStoreMySQL.nth E index sql b s w)
  = if index <? Z.of_nat (length (rows_items r))
    then match Py.index (rows_items r) index with
         | Some rec => Return (Some rec)
         | None => Raise IndexError
         end
    else Return None.
Proof.
  unfold DataStoreMySQL.nth, bind, outcome_of.
  destruct (DataStoreMySQL.query E sql b s w) as [[o s'] w']. cbn.
  intros ->. unfold ret, raise. by repeat case_match.
Qed.

(** A negative index within range counts from the end. *)
Lemma nth_negative_index E index sql b s w r :
  outcome_of (DataStoreMySQL.query E sql b s w) = Return (RRows r) ->
  - Z.of_nat (length (rows_items r)) <= index < 0 ->
  exists rec,
    rows_items r !! Z.to_nat (Z.of_nat (length (rows_items r)) + index) = Some rec
    /\ outcome_of (DataStoreMySQL.nth E index sql b s w) = Return (Some rec).
Proof.
  intros Hq Hi. rewrite (nth_on_rows _ _ _ _ _ _ _ Hq).
  destruct (index_from_the_end (rows_items r) index Hi) as [-> [rec Hrec]].
  exists rec. split; [done|]. rewrite Hrec.
  by replace (index <? Z.of_nat (length (rows_items r))) with true by lia.
Qed.

(** An index at or past the length gives none. *)
Lemma nth_past_the_end E index sql b s w r :
  outcome_of (DataStoreMySQL.query E sql b s w) = Return (RRows r) ->
  Z.of_nat (length (rows_items r)) <= index ->
  outcome_of (DataStoreMySQL.nth E index sql b s w) = Return None.
Proof.
  intros Hq Hi. rewrite (nth_on_rows _ _ _ _ _ _ _ Hq).
  by replace (index <? Z.of_nat (length (rows_items r))) with false by lia.
Qed.

(** A negative index passes the length test, also on an empty result. *)
Lemma nth_negative_on_empty E index sql b s w r :
  outcome_of (DataStoreMySQL.query E sql b s w) = Return (RRows r) ->
  rows_items r = [] ->
  index < 0 ->
  outcome_of (DataStoreMySQL.nth E index sql b s w) = Raise IndexError.
Proof.
  intros Hq Hr Hi. rewrite (nth_on_rows _ _ _ _ _ _ _ Hq), Hr.
  unfold Py.index. cbn [length]. change (Z.of_nat 0) with 0.
  change (- 0) with 0.
  replace (index <? 0) with true by lia.
  by replace (0 <=? index) with false by lia.
Qed.

(** C9: on the sample driver, whose result set is empty, [query] returns
    the empty list and [nth(-1, ...)] raises [IndexError]; it does not
    return none. *)
Theorem nth_negative_index_on_empty_result_raises :
  let q := DataStoreMySQL.query Sample.env "select id from t" (Some [])
             Sample.selected Sample.world0 in
  let r := DataStoreMySQL.nth Sample.env (-1) "select id from t" (Some [])
             Sample.selected Sample.world0 in
  outcome_of q = Return (RRows (RowsList []))
  /\ outcome_of r = Raise IndexError
  /\ outcome_of r <> Return None.
Proof. vm_compute. repeat split. discriminate. Qed.

Example nth_last_record :
  let E := Sample.with_driver
             (fun _ _ =>
                ExecOk 2 None (RowsList [[("id", VInt 1)]; [("id", VInt 2)]]))
             Sample.env in
  outcome_of (DataStoreMySQL.nth E (-1) "select id from t" (Some [])
                Sample.selected Sample.world0)
  = Return (Some [("id", VInt 2)])
  /\ outcome_of (DataStoreMySQL.nth E 2 "select id from t" (Some [])
                   Sample.selected Sample.world0)
     = Return None.
Proof. vm_compute. repeat split. Qed.

(** ** The registry *)

Section Registry.

Import DataStoreProvider.

Context (E : Env).

Hypothesis mysql_configured : config_data_store E = "mysql".

(** A name the thread already has an attribute for: the object bound to it
    is returned, whatever the flag says. *)
Lemma get_data_store_handle_bound self_pid tid connection db persistent_ R dsh :
  thread_attrs tid R !! connection = Some dsh ->
  (dsh < length (heap R))%nat ->
  exists R',
    get_data_store_handle E self_pid tid connection db persistent_ R
    = (Returned dsh, R')
    /\ thread_attrs tid R' !! connection = Some dsh
    /\ length (heap R') = length (heap R).
Proof.
  intros Hb Hlt. unfold get_data_store_handle.
  rewrite bool_decide_eq_true_2 by done.
  set (R1 := match _DataStoreProvider__persistent R !! connection with
             | Some _ => R
             | None => _
             end).
  assert (thread_attrs tid R1 = thread_attrs tid R /\ heap R1 = heap R)
    as [Hattrs Hheap] by (unfold R1; by case_match).
  rewrite Hattrs, Hb, Hheap.
  destruct (lookup_lt_is_Some_2 (heap R) dsh Hlt) as [obj ->].
  eexists. split; [reflexivity|]. cbn. split; [|by rewrite length_insert].
  by rewrite <- Hattrs in Hb.
Qed.

(** A name the thread has no attribute for: an object is looked up or
    created and bound to the name. *)
Lemma get_data_store_handle_unbound self_pid tid connection db persistent_ R :
  well_formed R ->
  thread_attrs tid R !! connection = None ->
  exists dsh R',
    get_data_store_handle E self_pid tid connection db persistent_ R
    = (Returned dsh, R')
    /\ thread_attrs tid R' !! connection = Some dsh
    /\ (dsh < length (heap R'))%nat
    /\ (persistent_ = false -> dsh = length (heap R)).
Proof.
  intros [Hwt Hwp] Hb. unfold get_data_store_handle.
  rewrite bool_decide_eq_true_2 by done.
  set (R1 := match _DataStoreProvider__persistent R !! connection with
             | Some _ => R
             | None => _
             end).
  assert (thread_attrs tid R1 = thread_attrs tid R /\ heap R1 = heap R
          /\ forall pid dsh, slots_of connection R1 !! pid = Some dsh ->
                             (dsh < length (heap R))%nat)
    as (Hattrs & Hheap & Hslots).
  { unfold R1, slots_of.
    destruct (_DataStoreProvider__persistent R !! connection)
      as [slots|] eqn:Hs.
    - repeat split. rewrite Hs. cbn. intros pid dsh. by apply (Hwp connection).
    - repeat split. cbn. rewrite lookup_insert_eq. cbn. intros pid dsh.
      by rewrite lookup_empty. }
  rewrite Hattrs, Hb. clearbody R1.
  unfold bind_new_handle, allocate.
  destruct persistent_.
  - destruct (slots_of connection R1 !! self_pid) as [dsh|] eqn:Hslot.
    + apply Hslots in Hslot. cbn. 
      destruct (lookup_lt_is_Some_2 (heap R1) dsh) as [obj ->];
        [by rewrite Hheap|].
      eexists _, _. split; [reflexivity|]. cbn.
      unfold thread_attrs. cbn. rewrite !lookup_insert_eq. cbn.
      rewrite lookup_insert_eq, length_insert, Hheap. done.
    + cbn. rewrite lookup_app_r by done. rewrite Nat.sub_diag. cbn.
      eexists _, _. split; [reflexivity|]. cbn.
      unfold thread_attrs. cbn. rewrite !lookup_insert_eq. cbn.
      rewrite lookup_insert_eq, length_insert, length_app. cbn.
      repeat split; try lia; try done.
  - cbn. rewrite lookup_app_r by done. rewrite Nat.sub_diag. cbn.
    eexists _, _. split; [reflexivity|]. cbn.
    unfold thread_attrs. cbn. rewrite !lookup_insert_eq. cbn.
    rewrite lookup_insert_eq, length_insert, length_app, Hheap. cbn.
    repeat split; try lia; try done.
Qed.

(** C4, amended: in a registry without dangling references, two requests
    made one after the other by the same thread for the same connection
    name return the identical session, whatever the database names, the
    providers and the persistent flags of the two requests; a
    non-persistent request by a thread that has no session bound to the
    name creates a new object, which the later requests then return. *)
Theorem get_data_store_handle_same_session
    pid1 pid2 tid connection db1 db2 persistent1 persistent2 R :
  well_formed R ->
  exists dsh R1 R2,
    get_data_store_handle E pid1 tid connection db1 persistent1 R
    = (Returned dsh, R1)
    /\ get_data_store_handle E pid2 tid connection db2 persistent2 R1
       = (Returned dsh, R2)
    /\ (thread_attrs tid R !! connection = None ->
        persistent1 = false -> dsh = length (heap R)).
Proof.
  intros Hwf.
  destruct (thread_attrs tid R !! connection) as [dsh|] eqn:Hb.
  - assert (dsh < length (heap R))%nat as Hlt.
    { unfold thread_attrs in Hb.
      destruct (_thread_local_data R !! tid) as [attrs|] eqn:Ht; [|done].
      by apply (proj1 Hwf tid attrs connection). }
    destruct (get_data_store_handle_bound pid1 tid connection db1
                persistent1 R dsh Hb Hlt) as (R1 & H1 & Hb1 & Hlen).
    destruct (get_data_store_handle_bound pid2 tid connection db2
                persistent2 R1 dsh Hb1) as (R2 & H2 & _); [by rewrite Hlen|].
    by exists dsh, R1, R2.
  - destruct (get_data_store_handle_unbound pid1 tid connection db1
                persistent1 R Hwf Hb) as (dsh & R1 & H1 & Hb1 & Hlt & Hnew).
    destruct (get_data_store_handle_bound pid2 tid connection db2
                persistent2 R1 dsh Hb1 Hlt) as (R2 & H2 & _).
    by exists dsh, R1, R2.
Qed.

End Registry.

Lemma well_formed_empty_registry :
  DataStoreProvider.well_formed Sample.empty_registry.
Proof. split; intros *; cbn; by rewrite lookup_empty. Qed.

(** The same for two persistent requests on the empty registry. *)
Lemma get_data_store_handle_same_session_witness :
  exists dsh R1 R2,
    DataStoreProvider.get_data_store_handle Sample.env 4242 0 "local" "db1"
      true Sample.empty_registry
    = (DataStoreProvider.Returned dsh, R1)
    /\ DataStoreProvider.get_data_store_handle Sample.env 4242 0 "local" "db1"
         true R1
       = (DataStoreProvider.Returned dsh, R2)
    /\ (DataStoreProvider.thread_attrs 0 Sample.empty_registry !! "local" = None ->
        true = false ->
        dsh = length (DataStoreProvider.heap Sample.empty_registry)).
Proof.
  apply (get_data_store_handle_same_session Sample.env eq_refl
           4242 4242 0%nat "local" "db1" "db1" true true
           Sample.empty_registry).
  split; intros *; cbn; by rewrite lookup_empty.
Defined.

(** C4 as stated fails: two non-persistent requests by one thread for
    ["local"] both return the object at address 0, the only one created. *)
Lemma non_persistent_requests_return_identical_session :
  let first := DataStoreProvider.get_data_store_handle Sample.env 4242 0
                 "local" "db1" false Sample.empty_registry in
  let second := DataStoreProvider.get_data_store_handle Sample.env 4242 0
                  "local" "db1" false first.2 in
  first.1 = DataStoreProvider.Returned 0%nat
  /\ second.1 = DataStoreProvider.Returned 0%nat
  /\ length (DataStoreProvider.heap second.2) = 1%nat.
Proof. vm_compute. repeat split. Qed.

(** * Further properties *)

(** ** [connect] *)



(** X2: on a session without a handle whose connection name is configured and
    whose database name is set, [connect] opens one new handle with the
    host, user and password configured under the name, the selected
    database and the session's charset, stamps the session with the current
    time, and counts a request (never a hit) when the session is
    persistent. *)
Theorem connect_opens_connection E s w name host user passwd db :
  _DataStoreMySQL__mysql s = None ->
  DataStoreMySQL.truthy_name (_connection_name s) = Some name ->
  mysql_connection_data E !! name = Some (host, user, passwd) ->
  DataStoreMySQL.truthy_name (_db_name s) = Some db ->
  driver_connect_ok E = true ->
  let r := DataStoreMySQL.connect E s w in
  outcome_of r = Return tt
  /\ _DataStoreMySQL__mysql (self_of r) = Some (next_handle w)
  /\ trace (world_of r)
     = EvConnect (next_handle w) host user passwd db (_charset s) :: trace w
  /\ next_handle (world_of r) = S (next_handle w)
  /\ _inactive_since (self_of r) = now E
  /\ requests (self_of r)
     = (if persistent s then S (requests s) else requests s)
  /\ hits (self_of r) = hits s.
Proof.
  intros Hh Hn Hc Hd Hok. unfold DataStoreMySQL.connect. unfold_monad.
  destruct (persistent s) eqn:Hp; cbn; rewrite Hh, Hn, Hc, Hd, Hok; cbn;
    by rewrite ?Hp.
Qed.

Lemma connect_opens_connection_witness :
  let r := DataStoreMySQL.connect Sample.env Sample.selected Sample.world0 in
  outcome_of r = Return tt
  /\ _DataStoreMySQL__mysql (self_of r) = Some (next_handle Sample.world0)
  /\ trace (world_of r)
     = EvConnect (next_handle Sample.world0) "" "" "" "db1"
         (_charset Sample.selected) :: trace Sample.world0
  /\ next_handle (world_of r) = S (next_handle Sample.world0)
  /\ _inactive_since (self_of r) = now Sample.env
  /\ requests (self_of r)
     = (if persistent Sample.selected then S (requests Sample.selected)
        else requests Sample.selected)
  /\ hits (self_of r) = hits Sample.selected.
Proof.
  apply (connect_opens_connection Sample.env Sample.selected Sample.world0
           "local" "" "" "" "db1"); reflexivity.
Defined.

(** X3: a session that holds a handle keeps it through [connect] and no handle
    is opened.  Non-persistent: nothing changes.  Persistent and used less
    than [_ping_interval - 3] seconds ago: one request and one hit are
    counted and the driver is not called.  Persistent and idle for longer:
    one request is counted, the handle is pinged, and the time of last use
    is reset only when the ping succeeds. *)
Theorem connect_reuses_handle E s w h :
  _DataStoreMySQL__mysql s = Some h ->
  let r := DataStoreMySQL.connect E s w in
  (persistent s = false -> r = (Return tt, s, w))
  /\ (persistent s = true ->
      now E - _inactive_since s < _ping_interval s - 3 ->
      r = (Return tt, with_hits (S (hits s)) (with_requests (S (requests s)) s), w))
  /\ (persistent s = true ->
      _ping_interval s - 3 <= now E - _inactive_since s ->
      trace (world_of r) = EvPing h :: trace w
      /\ hits (self_of r) = hits s
      /\ requests (self_of r) = S (requests s)
      /\ (driver_ping_ok E = true ->
          outcome_of r = Return tt /\ _inactive_since (self_of r) = now E)
      /\ (driver_ping_ok E = false ->
          outcome_of r = Raise (DriverError "ping failed")
          /\ _inactive_since (self_of r) = _inactive_since s))
  /\ _DataStoreMySQL__mysql (self_of r) = Some h
  /\ next_handle (world_of r) = next_handle w.
Proof.
  intros Hh. unfold DataStoreMySQL.connect, DataStoreMySQL.driver_ping.
  unfold_monad.
  destruct (persistent s) eqn:Hp; cbn; rewrite Hh, ?Hp; cbn.
  - destruct (_ping_interval s - 3 <=? now E - _inactive_since s) eqn:Hstale.
    + apply Z.leb_le in Hstale.
      destruct (driver_ping_ok E); cbn; repeat split; intros; try done; lia.
    + apply Z.leb_gt in Hstale. cbn. repeat split; intros; try done; lia.
  - repeat split; intros; done.
Qed.

Lemma connect_reuses_handle_witness :
  let r := DataStoreMySQL.connect Sample.env Sample.connected Sample.world1 in
  (persistent Sample.connected = false ->
   r = (Return tt, Sample.connected, Sample.world1))
  /\ (persistent Sample.connected = true ->
      now Sample.env - _inactive_since Sample.connected
      < _ping_interval Sample.connected - 3 ->
      r = (Return tt,
           with_hits (S (hits Sample.connected))
             (with_requests (S (requests Sample.connected)) Sample.connected),
           Sample.world1))
  /\ (persistent Sample.connected = true ->
      _ping_interval Sample.connected - 3
      <= now Sample.env - _inactive_since Sample.connected ->
      trace (world_of r) = EvPing 0%nat :: trace Sample.world1
      /\ hits (self_of r) = hits Sample.connected
      /\ requests (self_of r) = S (requests Sample.connected)
      /\ (driver_ping_ok Sample.env = true ->
          outcome_of r = Return tt
          /\ _inactive_since (self_of r) = now Sample.env)
      /\ (driver_ping_ok Sample.env = false ->
          outcome_of r = Raise (DriverError "ping failed")
          /\ _inactive_since (self_of r) = _inactive_since Sample.connected))
  /\ _DataStoreMySQL__mysql (self_of r) = Some 0%nat
  /\ next_handle (world_of r) = next_handle Sample.world1.
Proof.
  apply (connect_reuses_handle Sample.env Sample.connected Sample.world1 0%nat).
  reflexivity.
Defined.

(** ** The request and hit counters *)

Lemma connect_counts E s w :
  wp (DataStoreMySQL.connect E) s w (fun _ s' _ => counted s s').
Proof.
  unfold DataStoreMySQL.connect, DataStoreMySQL.driver_ping.
  unfold counted, same_counters.
  run_step; cbn;
    first [ congruence
          | by left
          | right; split; [done|]; first [by left | by right] ].
Qed.

Lemma get_cursor_keeps_counters s w :
  wp DataStoreMySQL.__get_cursor s w (fun _ s' _ => same_counters s s').
Proof. unfold DataStoreMySQL.__get_cursor, same_counters. by run_step. Qed.

Lemma close_cursor_keeps_counters s w :
  wp DataStoreMySQL.__close_cursor s w (fun _ s' _ => same_counters s s').
Proof. unfold DataStoreMySQL.__close_cursor, same_counters. by run_step. Qed.

Lemma reset_memcache_keeps_counters s w :
  wp RDBMSBase._reset_memcache s w (fun _ s' _ => same_counters s s').
Proof. unfold RDBMSBase._reset_memcache, same_counters. by run_step. Qed.

Lemma memcache_retrieve_keeps_counters E s w :
  wp (RDBMSBase.memcache_retrieve E) s w (fun _ s' _ => same_counters s s').
Proof.
  unfold RDBMSBase.memcache_retrieve, RDBMSBase.ensure_memcache,
    RDBMSBase.Memcache_retrieve, same_counters.
  by run_step.
Qed.

Lemma memcache_store_keeps_counters E data s w :
  wp (RDBMSBase.memcache_store E data) s w (fun _ s' _ => same_counters s s').
Proof.
  unfold RDBMSBase.memcache_store, RDBMSBase.ensure_memcache,
    RDBMSBase.Memcache_store, same_counters.
  by run_step.
Qed.

Lemma memcache_purge_keeps_counters E s w :
  wp (RDBMSBase.memcache_purge E) s w (fun _ s' _ => same_counters s s').
Proof.
  unfold RDBMSBase.memcache_purge, RDBMSBase.ensure_memcache,
    RDBMSBase.Memcache_purge, same_counters.
  by run_step.
Qed.

Ltac counters :=
  unfold counted, same_counters in *;
  cbn [requests hits with_DataStoreMySQL__row_count
       with_DataStoreMySQL__last_row_id] in *;
  intuition congruence.

Lemma query_counts E sql b s w :
  wp (DataStoreMySQL.query E sql b) s w (fun _ s' _ => counted s s').
Proof.
  unfold DataStoreMySQL.query.
  wp_step memcache_retrieve_keeps_counters as H0; [|counters].
  destruct a as [cached|].
  { wp_step reset_memcache_keeps_counters as H1; [|counters].
    apply wp_ret. counters. }
  wp_step connect_counts as H1; [|counters].
  wp_step get_cursor_keeps_counters as H2; [|counters].
  wp_prim.
  destruct (driver_execute E sql b).
  - do 2 wp_prim. apply wp_bind.
    assert (forall (res : result) s2 w2,
      wp (and_then DataStoreMySQL.__close_cursor
           (and_then RDBMSBase._reset_memcache (ret res))) s2 w2
         (fun _ s' _ => same_counters s2 s')) as Htail.
    { intros res s2 w2. unfold and_then.
      wp_step close_cursor_keeps_counters as H3; [|counters].
      wp_step reset_memcache_keeps_counters as H4; [|counters].
      apply wp_ret. counters. }
    destruct (_ || _).
    + wp_prim. wp_step memcache_store_keeps_counters as H3; [|counters].
      apply wp_ret. eapply wp_mono; [apply Htail|]. intros; counters.
    + apply wp_ret. eapply wp_mono; [apply Htail|]. intros; counters.
  - apply query_handler_spec. intros _. counters.
  - apply query_handler_spec. intros _. counters.
  - apply wp_raise. counters.
  - apply wp_raise. counters.
Qed.

Lemma create_counts E target data rid s w :
  wp (DataStoreMySQL.create E target data rid) s w (fun _ s' _ => counted s s').
Proof.
  unfold DataStoreMySQL.create.
  destruct (length data =? 0)%nat; [apply wp_ret; counters|].
  destruct (DataStoreMySQL.create_sql target data); [|apply wp_raise; counters].
  wp_step connect_counts as H1; [|counters].
  wp_step get_cursor_keeps_counters as H2; [|counters].
  wp_prim.
  destruct (driver_execute E _ _).
  - wp_prim. wp_step close_cursor_keeps_counters as H3; [|counters].
    apply wp_ret. counters.
  - repeat case_match; try apply raise_not_null_spec; try intros _;
      try apply wp_raise; counters.
  - apply wp_raise. counters.
  - apply wp_raise. counters.
  - apply wp_raise. counters.
Qed.

Lemma delete_counts E target data s w :
  wp (DataStoreMySQL.delete E target data) s w (fun _ s' _ => counted s s').
Proof.
  unfold DataStoreMySQL.delete.
  destruct (DataStoreMySQL.delete_sql target data) as [[sql b]|];
    [|apply wp_raise; counters].
  wp_step connect_counts as H1; [|counters].
  wp_step get_cursor_keeps_counters as H2; [|counters].
  wp_prim.
  destruct (driver_execute E _ _); try (apply wp_raise; counters).
  wp_prim.
  wp_step memcache_purge_keeps_counters as H3; [|counters].
  wp_step close_cursor_keeps_counters as H4; [|counters].
  wp_step reset_memcache_keeps_counters as H5; [|counters].
  apply wp_ret. counters.
Qed.

(** X4: [connect], [query], [create] and [delete] each count at most one
    request and at most one hit, never a hit without a request: a session
    whose hits do not exceed its requests stays so. *)
Theorem operations_keep_hits_below_requests
    E s w sql b target data rid :
  (hits s <= requests s)%nat ->
  let within := fun s' : Session =>
    (hits s' <= requests s')%nat
    /\ (requests s <= requests s' <= S (requests s))%nat
    /\ (hits s <= hits s' <= S (hits s))%nat in
  within (self_of (DataStoreMySQL.connect E s w))
  /\ within (self_of (DataStoreMySQL.query E sql b s w))
  /\ within (self_of (DataStoreMySQL.create E target data rid s w))
  /\ within (self_of (DataStoreMySQL.delete E target data s w)).
Proof.
  intros Hle within.
  assert (forall s', counted s s' -> within s') as Hin.
  { intros s' Hc. unfold within, counted, same_counters in *. lia. }
  split_and!; apply Hin.
  - apply (connect_counts E s w).
  - apply (query_counts E sql b s w).
  - apply (create_counts E target data rid s w).
  - apply (delete_counts E target data s w).
Qed.

Lemma operations_keep_hits_below_requests_witness :
  let s := Sample.connected in
  let within := fun s' : Session =>
    (hits s' <= requests s')%nat
    /\ (requests s <= requests s' <= S (requests s))%nat
    /\ (hits s <= hits s' <= S (hits s))%nat in
  within (self_of (DataStoreMySQL.connect Sample.env s Sample.world1))
  /\ within (self_of (DataStoreMySQL.query Sample.env "select n from t"
                        (Some []) s Sample.world1))
  /\ within (self_of (DataStoreMySQL.create Sample.env "files" Scenario.fields
                        true s Sample.world1))
  /\ within (self_of (DataStoreMySQL.delete Sample.env "files" Scenario.fields
                        s Sample.world1)).
Proof.
  apply (operations_keep_hits_below_requests Sample.env Sample.connected
           Sample.world1 "select n from t" (Some []) "files" Scenario.fields
           true).
  vm_compute. lia.
Defined.

(** ** [close], [ping], [commit] and [rollback] *)

(** X5: [close] always returns, closes an open cursor and clears the local
    cache; it closes and forgets the handle and detaches the cache client
    exactly when the session is not persistent, and leaves both in place
    when it is. *)
Theorem close_releases s w :
  let r := DataStoreMySQL.close s w in
  outcome_of r = Return tt
  /\ _DataStoreMySQL__cursor (self_of r) = None
  /\ _DataStoreMySQL__mysql (self_of r)
     = (if persistent s then _DataStoreMySQL__mysql s else None)
  /\ _memcache (self_of r) = (if persistent s then _memcache s else None)
  /\ trace (world_of r)
     = ((if persistent s then []
        else match _memcache s with
             | Some _ => [EvCacheClose]
             | None => []
             end
             ++ match _DataStoreMySQL__mysql s with
                | Some h => [EvCloseConnection h]
                | None => []
                end)
       ++ [EvCacheClearLocal]
       ++ match _DataStoreMySQL__cursor s with
          | Some c => [EvCloseCursor c]
          | None => []
          end
       ++ trace w)%list.
Proof.
  unfold DataStoreMySQL.close, DataStoreMySQL.__close_cursor.
  unfold_monad.
  destruct (_DataStoreMySQL__cursor s) as [c|] eqn:Hc;
    destruct (_DataStoreMySQL__mysql s) as [h|] eqn:Hh;
    destruct (persistent s) eqn:Hp;
    destruct (_memcache s) as [m|] eqn:Hm;
    cbn; rewrite ?Hh, ?Hp, ?Hm; cbn; rewrite ?Hp, ?Hm; cbn;
    by repeat split.
Qed.

(** X6: with a ping interval above 3 seconds, a [ping] that returns leaves the
    session in a state where another [ping] at the same time does nothing:
    a stale handle is probed once, not twice. *)
Theorem ping_twice_probes_once E s w :
  3 < _ping_interval s ->
  outcome_of (DataStoreMySQLMore.ping E s w) = Return tt ->
  let r := DataStoreMySQLMore.ping E s w in
  DataStoreMySQLMore.ping E (self_of r) (world_of r)
  = (Return tt, self_of r, world_of r).
Proof.
  intros Hi. unfold DataStoreMySQLMore.ping, DataStoreMySQL.driver_ping.
  unfold_monad.
  destruct (_DataStoreMySQL__mysql s) as [h|] eqn:Hh; cbn; [|by rewrite Hh].
  destruct (_ping_interval s - 3 <=? now E - _inactive_since s) eqn:Hstale.
  - destruct (driver_ping_ok E); cbn; [|done]. intros _. rewrite Hh.
    by replace (_ping_interval s - 3 <=? now E - now E) with false by lia.
  - cbn. intros _. by rewrite Hh, Hstale.
Qed.

Lemma ping_twice_probes_once_witness :
  let r := DataStoreMySQLMore.ping Scenario.later Sample.connected Sample.world1 in
  DataStoreMySQLMore.ping Scenario.later (self_of r) (world_of r)
  = (Return tt, self_of r, world_of r).
Proof.
  apply (ping_twice_probes_once Scenario.later Sample.connected Sample.world1);
    reflexivity.
Defined.

Example ping_probes_when_stale :
  trace (world_of (DataStoreMySQLMore.ping Scenario.later Sample.connected
                     Sample.world1))
  = EvPing 0%nat :: trace Sample.world1.
Proof. reflexivity. Qed.

Theorem ping_probes_stale_handle E s w h :
  _DataStoreMySQL__mysql s = Some h ->
  _ping_interval s - 3 <= now E - _inactive_since s ->
  driver_ping_ok E = true ->
  DataStoreMySQLMore.ping E s w
  = (Return tt, with_inactive_since (now E) s, record_event (EvPing h) w).
Proof.
  intros Hh Hstale Hok. unfold DataStoreMySQLMore.ping, DataStoreMySQL.driver_ping.
  unfold_monad. rewrite Hh.
  replace (_ping_interval s - 3 <=? now E - _inactive_since s) with true by lia.
  by rewrite Hok.
Qed.

Theorem ping_leaves_fresh_or_absent_handle E s w :
  _DataStoreMySQL__mysql s = None
  \/ now E - _inactive_since s < _ping_interval s - 3 ->
  DataStoreMySQLMore.ping E s w = (Return tt, s, w).
Proof.
  intros H. unfold DataStoreMySQLMore.ping. unfold_monad.
  destruct (_DataStoreMySQL__mysql s); [|done].
  destruct H as [|H]; [done|].
  by replace (_ping_interval s - 3 <=? now E - _inactive_since s) with false by lia.
Qed.

(** X7: without an established handle [commit] and [rollback] raise a
    [DataStoreException] that names the operation, and do nothing at all
    when exceptions are to be ignored; the session and the world are
    untouched either way. *)
Theorem commit_and_rollback_need_handle E s w :
  _DataStoreMySQL__mysql s = None ->
  DataStoreMySQL.commit E true s w = (Return tt, s, w)
  /\ DataStoreMySQL.rollback E true s w = (Return tt, s, w)
  /\ DataStoreMySQL.commit E false s w
     = (Raise (DataStoreException
          "transaction cannot be committed because a database connection has not been established yet"),
        s, w)
  /\ DataStoreMySQL.rollback E false s w
     = (Raise (DataStoreException
          "transaction cannot be rolled back because a database connection has not been established yet"),
        s, w).
Proof.
  intros Hh. unfold DataStoreMySQL.commit, DataStoreMySQL.rollback.
  unfold_monad. by rewrite Hh.
Qed.

Lemma commit_and_rollback_need_handle_witness :
  DataStoreMySQL.commit Sample.env true Sample.selected Sample.world0
  = (Return tt, Sample.selected, Sample.world0)
  /\ DataStoreMySQL.rollback Sample.env true Sample.selected Sample.world0
     = (Return tt, Sample.selected, Sample.world0)
  /\ DataStoreMySQL.commit Sample.env false Sample.selected Sample.world0
     = (Raise (DataStoreException
          "transaction cannot be committed because a database connection has not been established yet"),
        Sample.selected, Sample.world0)
  /\ DataStoreMySQL.rollback Sample.env false Sample.selected Sample.world0
     = (Raise (DataStoreException
          "transaction cannot be rolled back because a database connection has not been established yet"),
        Sample.selected, Sample.world0).
Proof.
  apply (commit_and_rollback_need_handle Sample.env Sample.selected
           Sample.world0).
  reflexivity.
Defined.

(** X8: outside the test-isolation mode, [commit] on a session with a handle
    runs [connect] and then issues the commit on that handle, and changes
    the session only as [connect] does. *)
Theorem commit_issued_outside_unit_test E ignore s w h :
  env_unit_test E = false ->
  _DataStoreMySQL__mysql s = Some h ->
  driver_ping_ok E = true ->
  let r := DataStoreMySQL.commit E ignore s w in
  outcome_of r = Return tt
  /\ trace (world_of r)
     = EvCommit h :: trace (world_of (DataStoreMySQL.connect E s w))
  /\ self_of r = self_of (DataStoreMySQL.connect E s w).
Proof.
  intros Ht Hh Hp.
  pose proof (connect_spec E s w) as (_ & _ & Hkeep & _).
  pose proof (connect_returns_on_handle E s w h Hh Hp) as Hret.
  specialize (Hkeep h Hh).
  unfold DataStoreMySQL.commit. unfold_monad. rewrite Hh, Ht.
  destruct (DataStoreMySQL.connect E s w) as [[[[]|e] s1] w1];
    cbn in *; [|done].
  by rewrite Hkeep.
Qed.

Lemma commit_issued_outside_unit_test_witness :
  let r := DataStoreMySQL.commit Sample.env false Sample.connected Sample.world1 in
  outcome_of r = Return tt
  /\ trace (world_of r)
     = EvCommit 0%nat
       :: trace (world_of (DataStoreMySQL.connect Sample.env Sample.connected
                             Sample.world1))
  /\ self_of r
     = self_of (DataStoreMySQL.connect Sample.env Sample.connected Sample.world1).
Proof.
  apply (commit_issued_outside_unit_test Sample.env false Sample.connected
           Sample.world1 0%nat); reflexivity.
Defined.

(** ** [query] at the driver *)

(** The call has missed the cache and connected: what is left of [query]
    runs on an object that holds a handle and has kept its directive and
    its cursor. *)
Ltac enter_query E s w Hmiss Hconn :=
  let S1 := fresh "S" in
  let S2 := fresh "S" in
  let Hh := fresh "Hhandle" in
  pose proof (connects_established E s w Hconn) as Hh;
  unfold cache_answer, connects in Hmiss, Hconn;
  pose proof (memcache_retrieve_spec E s w) as S1; unfold wp in S1;
  unfold DataStoreMySQL.query; apply wp_bind; unfold wp at 1;
  destruct (RDBMSBase.memcache_retrieve E s w) as [[?o ?s] ?w];
  cbn [outcome_of self_of world_of fst snd] in Hmiss, Hconn, Hh, S1 |- *;
  destruct S1 as ([?answer ->] & ?F & ?W & _); subst;
  lazymatch goal with
  | |- wp (bind (DataStoreMySQL.connect E) _) ?s1 ?w1 _ =>
      pose proof (connect_spec E s1 w1) as S2; unfold wp in S2;
      apply wp_bind; unfold wp at 1;
      destruct (DataStoreMySQL.connect E s1 w1) as [[[[]|?e] ?s] ?w];
      cbn [outcome_of self_of world_of fst snd] in Hconn, Hh, S2 |- *;
      [|done];
      destruct S2 as (?F & ?W & _ & _); destruct Hh as [?h Hh]
  end.

Lemma memcache_store_effect E data s w :
  RDBMSBase.memcache_store E data s w
  = match _memcache_key s with
    | Some key =>
        if env_unit_test E then (Return tt, s, w)
        else (Return tt,
              match _memcache s with
              | Some _ => s
              | None => with_memcache (Some Memcache) s
              end,
              {| trace := EvCacheStore key data (_memcache_ttl s) :: trace w;
                 next_handle := next_handle w;
                 next_cursor := next_cursor w;
                 cache := <[key := data]> (cache w) |})
    | None => (Return tt, s, w)
    end.
Proof.
  unfold RDBMSBase.memcache_store, RDBMSBase.ensure_memcache,
    RDBMSBase.Memcache_store.
  unfold_monad.
  destruct (_memcache_key s); [|done].
  destruct (env_unit_test E); [done|].
  by destruct (_memcache s).
Qed.

(** X9: a [select] or [show] statement that reaches the driver and is accepted
    returns the fetched rows, the empty tuple turned into the empty list,
    records row count and last insert id, is the one statement executed,
    and, when a directive is armed outside the test-isolation mode, is
    stored in the cache under the armed key with the armed ttl. *)
Theorem query_select_returns_and_stores_rows
    E sql b s w rowcount lastrowid fetched :
  cache_answer E s w = None ->
  connects E s w = true ->
  driver_execute E sql b = ExecOk rowcount lastrowid fetched ->
  Re.match_select sql || Re.match_show sql = true ->
  let r := DataStoreMySQL.query E sql b s w in
  exists items : rows,
    outcome_of r = Return (RRows items)
    /\ rows_items items = rows_items fetched
    /\ items <> RowsTuple []
    /\ DataStoreMySQL.get_row_count (self_of r) = Some rowcount
    /\ DataStoreMySQL.get_last_row_id (self_of r) = lastrowid
    /\ executed (trace (world_of r)) = (sql, b) :: executed (trace w)
    /\ match _memcache_key s with
       | Some key =>
           if env_unit_test E then cache (world_of r) = cache w
           else cache (world_of r) = <[key := RRows items]> (cache w)
                /\ In (EvCacheStore key (RRows items) (_memcache_ttl s))
                      (trace (world_of r))
       | None => cache (world_of r) = cache w
       end.
Proof.
  intros Hmiss Hconn Hdrv Hsel.
  exists (DataStoreMySQL.normalize_fetched fetched).
  as_wp. enter_query E s w Hmiss Hconn.
  unfold wp, DataStoreMySQL.__get_cursor, DataStoreMySQL.__close_cursor,
    RDBMSBase._reset_memcache.
  rewrite Hsel, Hdrv.
  destruct F as (Hk & Ht & _), F0 as (Hk0 & Ht0 & _), W as [He Hca],
    W0 as [He0 Hca0].
  assert (rows_items (DataStoreMySQL.normalize_fetched fetched)
          = rows_items fetched
          /\ DataStoreMySQL.normalize_fetched fetched <> RowsTuple [])
    as [Hitems Hnorm] by (by destruct fetched as [[|]|]).
  unfold_monad. rewrite Hhandle.
  destruct (_DataStoreMySQL__cursor s1) as [c|] eqn:Hc1;
    cbn -[RDBMSBase.memcache_store];
    rewrite memcache_store_effect; cbn;
    rewrite Hk0, Hk, ?Ht0, ?Ht;
    destruct (_memcache_key s) as [key|]; cbn;
    try destruct (env_unit_test E); try destruct (_memcache s1); cbn;
    rewrite ?Hc1; cbn;
    rewrite ?Hca0, ?Hca;
    repeat split; auto;
    try (fold (executed (trace w1)); by rewrite He0, He).
Qed.


Lemma query_select_returns_and_stores_rows_witness :
  let r := DataStoreMySQL.query Sample.env "select n from t" (Some [])
             Sample.armed Sample.world1 in
  exists items : rows,
    outcome_of r = Return (RRows items)
    /\ rows_items items = rows_items (RowsTuple [])
    /\ items <> RowsTuple []
    /\ DataStoreMySQL.get_row_count (self_of r) = Some 1
    /\ DataStoreMySQL.get_last_row_id (self_of r) = Some 7
    /\ executed (trace (world_of r))
       = ("select n from t", Some []) :: executed (trace Sample.world1)
    /\ (cache (world_of r) = <["k" := RRows items]> (cache Sample.world1)
        /\ In (EvCacheStore "k" (RRows items) (_memcache_ttl Sample.armed))
              (trace (world_of r))).
Proof.
  apply (query_select_returns_and_stores_rows Sample.env "select n from t"
           (Some []) Sample.armed Sample.world1 1 (Some 7) (RowsTuple []));
    reflexivity.
Defined.

(** X10: any other statement that reaches the driver and is accepted returns
    [True], records row count and last insert id, leaves the cache as it
    is, closes the cursor and clears the directive. *)
Theorem query_write_returns_true E sql b s w rowcount lastrowid fetched :
  cache_answer E s w = None ->
  connects E s w = true ->
  driver_execute E sql b = ExecOk rowcount lastrowid fetched ->
  Re.match_select sql || Re.match_show sql = false ->
  let r := DataStoreMySQL.query E sql b s w in
  outcome_of r = Return RTrue
  /\ DataStoreMySQL.get_row_count (self_of r) = Some rowcount
  /\ DataStoreMySQL.get_last_row_id (self_of r) = lastrowid
  /\ executed (trace (world_of r)) = (sql, b) :: executed (trace w)
  /\ cache (world_of r) = cache w
  /\ _DataStoreMySQL__cursor (self_of r) = None
  /\ _memcache_key (self_of r) = None.
Proof.
  intros Hmiss Hconn Hdrv Hsel.
  as_wp. enter_query E s w Hmiss Hconn.
  unfold wp, DataStoreMySQL.__get_cursor, DataStoreMySQL.__close_cursor,
    RDBMSBase._reset_memcache.
  rewrite Hsel, Hdrv.
  destruct W as [He Hca], W0 as [He0 Hca0].
  unfold_monad. rewrite Hhandle.
  destruct (_DataStoreMySQL__cursor s1) as [c|] eqn:Hc1; cbn;
    rewrite ?Hc1; cbn; rewrite ?Hca0, ?Hca;
    repeat split; auto;
    try (fold (executed (trace w1)); by rewrite He0, He).
Qed.

Lemma query_write_returns_true_witness :
  let r := DataStoreMySQL.query Sample.env "update t set n = %s"
             (Some [VInt 2]) Sample.armed Sample.world1 in
  outcome_of r = Return RTrue
  /\ DataStoreMySQL.get_row_count (self_of r) = Some 1
  /\ DataStoreMySQL.get_last_row_id (self_of r) = Some 7
  /\ executed (trace (world_of r))
     = ("update t set n = %s", Some [VInt 2]) :: executed (trace Sample.world1)
  /\ cache (world_of r) = cache Sample.world1
  /\ _DataStoreMySQL__cursor (self_of r) = None
  /\ _memcache_key (self_of r) = None.
Proof.
  apply (query_write_returns_true Sample.env "update t set n = %s"
           (Some [VInt 2]) Sample.armed Sample.world1 1 (Some 7) (RowsTuple []));
    reflexivity.
Defined.

(** X11: when the driver fails a statement of [query] with an integrity or an
    internal error, code 1062 becomes [DataStoreDuplicateKeyException],
    1271 [IllegalMixOfCollationsException] with the statement and its
    binds, 1452 [DataStoreForeignKeyException], 1048
    [ColumnCannotBeNullException] with the parsed column (an
    [AttributeError] when the message does not have the expected form), and
    any other code is re-raised unchanged; a programming error becomes a
    [DataStoreException] with the formatted message, other driver errors
    pass through. *)
Theorem query_error_taxonomy E sql b s w :
  cache_answer E s w = None ->
  connects E s w = true ->
  let o := outcome_of (DataStoreMySQL.query E sql b s w) in
  (forall errno message,
     driver_execute E sql b = ExecIntegrityError errno message
     \/ driver_execute E sql b = ExecInternalError errno message ->
     (errno = 1062 -> o = Raise (DataStoreDuplicateKeyException message))
     /\ (errno = 1271 -> o = Raise (IllegalMixOfCollationsException sql b))
     /\ (errno = 1452 -> o = Raise (DataStoreForeignKeyException message))
     /\ (errno = 1048 ->
         o = match Re.match_not_null message with
             | Some column => Raise (ColumnCannotBeNullException column)
             | None => Raise AttributeError
             end))
  /\ (forall errno message,
        errno <> 1048 -> errno <> 1062 -> errno <> 1271 -> errno <> 1452 ->
        (driver_execute E sql b = ExecIntegrityError errno message ->
         o = Raise (IntegrityError errno message))
        /\ (driver_execute E sql b = ExecInternalError errno message ->
            o = Raise (InternalError errno message)))
  /\ (forall errno message,
        driver_execute E sql b = ExecProgrammingError errno message ->
        o = Raise (DataStoreException
                     (DataStoreMySQL.__format_query_execution_error E sql
                        message b)))
  /\ (forall message,
        driver_execute E sql b = ExecOtherError message ->
        o = Raise (DriverError message)).
Proof.
  intros Hmiss Hconn.
  as_wp. enter_query E s w Hmiss Hconn.
  unfold wp, DataStoreMySQL.__get_cursor, DataStoreMySQL.query_handler,
    DataStoreMySQL.raise_not_null, DataStoreMySQL.__extract_not_null_column.
  unfold_monad. rewrite Hhandle.
  assert (forall errno, errno <> 1048 -> (errno =? 1048) = false) as N1 by lia.
  assert (forall errno, errno <> 1062 -> (errno =? 1062) = false) as N2 by lia.
  assert (forall errno, errno <> 1271 -> (errno =? 1271) = false) as N3 by lia.
  assert (forall errno, errno <> 1452 -> (errno =? 1452) = false) as N4 by lia.
  destruct (_DataStoreMySQL__cursor s1) as [c|]; cbn;
    destruct (driver_execute E sql b) as [| errno0 m0 | errno0 m0 | errno0 m0 | m0];
    cbn; repeat split; intros;
    repeat match goal with
           | H : _ \/ _ |- _ => destruct H
           end;
    simplify_eq/=; rewrite ?N1, ?N2, ?N3, ?N4 by done; cbn;
    try done; by case_match.
Qed.

Lemma query_error_taxonomy_witness :
  let o := outcome_of (DataStoreMySQL.query Sample.env_duplicate
                         "insert into t(id) values (%s)" (Some [VInt 1])
                         Sample.selected Sample.world0) in
  (forall errno message,
     driver_execute Sample.env_duplicate "insert into t(id) values (%s)"
       (Some [VInt 1]) = ExecIntegrityError errno message
     \/ driver_execute Sample.env_duplicate "insert into t(id) values (%s)"
          (Some [VInt 1]) = ExecInternalError errno message ->
     (errno = 1062 -> o = Raise (DataStoreDuplicateKeyException message))
     /\ (errno = 1271 ->
         o = Raise (IllegalMixOfCollationsException
                      "insert into t(id) values (%s)" (Some [VInt 1])))
     /\ (errno = 1452 -> o = Raise (DataStoreForeignKeyException message))
     /\ (errno = 1048 ->
         o = match Re.match_not_null message with
             | Some column => Raise (ColumnCannotBeNullException column)
             | None => Raise AttributeError
             end))
  /\ (forall errno message,
        errno <> 1048 -> errno <> 1062 -> errno <> 1271 -> errno <> 1452 ->
        (driver_execute Sample.env_duplicate "insert into t(id) values (%s)"
           (Some [VInt 1]) = ExecIntegrityError errno message ->
         o = Raise (IntegrityError errno message))
        /\ (driver_execute Sample.env_duplicate
              "insert into t(id) values (%s)" (Some [VInt 1])
            = ExecInternalError errno message ->
            o = Raise (InternalError errno message)))
  /\ (forall errno message,
        driver_execute Sample.env_duplicate "insert into t(id) values (%s)"
          (Some [VInt 1]) = ExecProgrammingError errno message ->
        o = Raise (DataStoreException
                     (DataStoreMySQL.__format_query_execution_error
                        Sample.env_duplicate "insert into t(id) values (%s)"
                        message (Some [VInt 1]))))
  /\ (forall message,
        driver_execute Sample.env_duplicate "insert into t(id) values (%s)"
          (Some [VInt 1]) = ExecOtherError message ->
        o = Raise (DriverError message)).
Proof.
  apply (query_error_taxonomy Sample.env_duplicate
           "insert into t(id) values (%s)" (Some [VInt 1])
           Sample.selected Sample.world0); reflexivity.
Defined.

(** ** The cache directive *)

Lemma query_return_clears_key E sql b s w :
  wp (DataStoreMySQL.query E sql b) s w
     (fun o s' _ => match o with
                    | Return _ => _memcache_key s' = None
                    | Raise _ => True
                    end).
Proof.
  unfold DataStoreMySQL.query.
  wp_step memcache_retrieve_spec as H0; [|done].
  destruct a as [cached|].
  { wp_step reset_memcache_spec as H1; [|done]. apply wp_ret. by frames. }
  wp_step connect_spec as H1; [|done].
  wp_step get_cursor_spec as H2; [|done].
  wp_prim.
  destruct (driver_execute E sql b);
    try (apply query_handler_spec; done); try (by apply wp_raise).
  do 2 wp_prim. apply wp_bind.
  assert (forall (res : result) s2 w2,
    wp (and_then DataStoreMySQL.__close_cursor
         (and_then RDBMSBase._reset_memcache (ret res))) s2 w2
       (fun o s' _ => match o with
                      | Return _ => _memcache_key s' = None
                      | Raise _ => True
                      end)) as Htail.
  { intros res s2 w2. unfold and_then.
    wp_step close_cursor_spec as H3; [|done].
    wp_step reset_memcache_spec as H4; [|done].
    apply wp_ret. by frames. }
  destruct (_ || _).
  - wp_prim. wp_step memcache_store_spec as H3; [|done].
    apply wp_ret. apply Htail.
  - apply wp_ret. apply Htail.
Qed.

(** X12: after a [query] that returns, the directive is spent: the cache lookup
    of the next call answers none and does not even reach the cache
    client. *)
Theorem cache_directive_is_one_shot E sql b s w res :
  outcome_of (DataStoreMySQL.query E sql b s w) = Return res ->
  let r := DataStoreMySQL.query E sql b s w in
  RDBMSBase.memcache_retrieve E (self_of r) (world_of r)
  = (Return None, self_of r, world_of r)
  /\ cache_answer E (self_of r) (world_of r) = None.
Proof.
  intros Hret. cbv zeta.
  pose proof (query_return_clears_key E sql b s w) as Hk.
  unfold wp in Hk. rewrite Hret in Hk.
  unfold cache_answer, RDBMSBase.memcache_retrieve. unfold_monad.
  by rewrite Hk.
Qed.

Lemma cache_directive_is_one_shot_witness :
  let r := DataStoreMySQL.query Sample.env "select n from t" (Some [])
             Sample.armed Sample.world_cached in
  RDBMSBase.memcache_retrieve Sample.env (self_of r) (world_of r)
  = (Return None, self_of r, world_of r)
  /\ cache_answer Sample.env (self_of r) (world_of r) = None.
Proof.
  apply (cache_directive_is_one_shot Sample.env "select n from t" (Some [])
           Sample.armed Sample.world_cached Sample.cached_rows).
  reflexivity.
Defined.

(** ** [nth], [count] and [one] *)

Lemma nth_lookup E index sql b s w r :
  outcome_of (DataStoreMySQL.query E sql b s w) = Return (RRows r) ->
  0 <= index ->
  outcome_of (DataStoreMySQL.nth E index sql b s w)
  = Return (rows_items r !! Z.to_nat index).
Proof.
  intros Hq Hi. rewrite (nth_on_rows _ _ _ _ _ _ _ Hq).
  destruct (index <? Z.of_nat (length (rows_items r))) eqn:Hlt.
  - apply Z.ltb_lt in Hlt. unfold Py.index.
    replace (0 <=? index) with true by lia.
    replace (index <? Z.of_nat (length (rows_items r))) with true by lia.
    cbn. destruct (lookup_lt_is_Some_2 (rows_items r) (Z.to_nat index))
      as [rec Hrec]; [lia|].
    by rewrite Hrec.
  - apply Z.ltb_ge in Hlt. rewrite lookup_ge_None_2; [done|lia].
Qed.

(** X13: for a non-negative index, [nth] on a result sequence returns the record
    at that position when there is one and none at or past the end. *)
Theorem nth_nonnegative_index E index sql b s w r :
  outcome_of (DataStoreMySQL.query E sql b s w) = Return (RRows r) ->
  0 <= index ->
  outcome_of (DataStoreMySQL.nth E index sql b s w)
  = Return (rows_items r !! Z.to_nat index)
  /\ (index < Z.of_nat (length (rows_items r)) ->
      exists rec, outcome_of (DataStoreMySQL.nth E index sql b s w)
                  = Return (Some rec))
  /\ (Z.of_nat (length (rows_items r)) <= index ->
      outcome_of (DataStoreMySQL.nth E index sql b s w) = Return None).
Proof.
  intros Hq Hi. rewrite (nth_lookup E index sql b s w r Hq Hi).
  split; [done|]. split.
  - intros Hlt.
    destruct (lookup_lt_is_Some_2 (rows_items r) (Z.to_nat index))
      as [rec Hrec]; [lia|].
    exists rec. by rewrite Hrec.
  - intros Hge. rewrite lookup_ge_None_2; [done|lia].
Qed.

Lemma nth_nonnegative_index_witness :
  outcome_of (DataStoreMySQL.nth Scenario.env_rows 1 "select id, name from t"
                (Some []) Sample.selected Sample.world0)
  = Return (rows_items Scenario.two_rows !! Z.to_nat 1)
  /\ (1 < Z.of_nat (length (rows_items Scenario.two_rows)) ->
      exists rec,
        outcome_of (DataStoreMySQL.nth Scenario.env_rows 1
                      "select id, name from t" (Some []) Sample.selected
                      Sample.world0)
        = Return (Some rec))
  /\ (Z.of_nat (length (rows_items Scenario.two_rows)) <= 1 ->
      outcome_of (DataStoreMySQL.nth Scenario.env_rows 1
                    "select id, name from t" (Some []) Sample.selected
                    Sample.world0)
      = Return None).
Proof.
  apply (nth_nonnegative_index Scenario.env_rows 1 "select id, name from t"
           (Some []) Sample.selected Sample.world0 Scenario.two_rows).
  - reflexivity.
  - lia.
Defined.

(** X14: [nth] on a statement for which [query] returns [True] raises
    [TypeError]: [True] has no length. *)
Theorem nth_on_write_statement E index sql b s w :
  outcome_of (DataStoreMySQL.query E sql b s w) = Return RTrue ->
  outcome_of (DataStoreMySQL.nth E index sql b s w) = Raise TypeError.
Proof.
  unfold DataStoreMySQL.nth, bind, outcome_of.
  destruct (DataStoreMySQL.query E sql b s w) as [[o s'] w']. cbn.
  by intros ->.
Qed.

(** X15: [count] returns none on an empty result, the value of the first column
    of the first row otherwise, and raises [IndexError] when that row has
    no column. *)
Theorem count_first_column E sql b s w r :
  outcome_of (DataStoreMySQL.query E sql b s w) = Return (RRows r) ->
  outcome_of (DataStoreMySQL.count E sql b s w)
  = match rows_items r with
    | [] => Return None
    | [] :: _ => Raise IndexError
    | ((_, v) :: _) :: _ => Return (Some v)
    end.
Proof.
  intros Hq.
  pose proof (nth_lookup E 0 sql b s w r Hq) as Hn.
  unfold DataStoreMySQL.count, bind, outcome_of in *.
  destruct (DataStoreMySQL.nth E 0 sql b s w) as [[o s'] w']. cbn in *.
  rewrite Hn by lia. cbn.
  destruct (rows_items r) as [|[|[k v] fields] rest]; reflexivity.
Qed.

Lemma nth_on_write_statement_witness :
  outcome_of (DataStoreMySQL.nth Sample.env 0 "update t set n = %s"
                (Some [VInt 2]) Sample.selected Sample.world0)
  = Raise TypeError.
Proof.
  apply (nth_on_write_statement Sample.env 0 "update t set n = %s"
           (Some [VInt 2]) Sample.selected Sample.world0).
  reflexivity.
Defined.

Lemma count_first_column_witness :
  outcome_of (DataStoreMySQL.count Scenario.env_rows "select id, name from t"
                (Some []) Sample.selected Sample.world0)
  = match rows_items Scenario.two_rows with
    | [] => Return None
    | [] :: _ => Raise IndexError
    | ((_, v) :: _) :: _ => Return (Some v)
    end.
Proof.
  apply (count_first_column Scenario.env_rows "select id, name from t"
           (Some []) Sample.selected Sample.world0 Scenario.two_rows).
  reflexivity.
Defined.

Lemma setattr_all_other (fields : record) (attrs : gmap string value) (k : string) :
  ~ In k (map fst fields) ->
  DataStoreMySQLMore.setattr_all fields attrs !! k = attrs !! k.
Proof.
  unfold DataStoreMySQLMore.setattr_all.
  revert attrs. induction fields as [|[k0 v0] rest IH]; intros attrs Hk; [done|].
  cbn in *. rewrite IH by tauto. apply lookup_insert_ne. tauto.
Qed.

Lemma setattr_all_field (fields : record) (attrs : gmap string value) (k : string) (v : value) :
  NoDup (map fst fields) ->
  In (k, v) fields ->
  DataStoreMySQLMore.setattr_all fields attrs !! k = Some v.
Proof.
  revert attrs. induction fields as [|[k0 v0] rest IH]; intros attrs Hnd Hin;
    [done|].
  apply NoDup_cons in Hnd as [Hk0 Hnd].
  destruct Hin as [[= -> ->]|Hin].
  - change (DataStoreMySQLMore.setattr_all rest (<[k := v]> attrs) !! k = Some v).
    rewrite setattr_all_other; [apply lookup_insert_eq|].
    by rewrite <- list_elem_of_In.
  - by apply (IH (<[k0 := v0]> attrs)).
Qed.

(** X16: [one] with a target object and a first row sets every column of the row
    on the object, leaves the other attributes of the object alone, and
    still returns the row. *)
Theorem one_fills_object E sql b attrs s w fields :
  outcome_of (DataStoreMySQL.nth E 0 sql b s w) = Return (Some fields) ->
  NoDup (map fst fields) ->
  exists attrs',
    (DataStoreMySQLMore.one E sql b (Some attrs) s w).1.1
    = DataStoreMySQLMore.OneReturn (Some fields) (Some attrs')
    /\ (forall k v, In (k, v) fields -> attrs' !! k = Some v)
    /\ (forall k, ~ In k (map fst fields) -> attrs' !! k = attrs !! k).
Proof.
  intros Hn Hnd. unfold DataStoreMySQLMore.one, outcome_of in *.
  destruct (DataStoreMySQL.nth E 0 sql b s w) as [[o s'] w']. cbn in Hn.
  subst o. eexists. split; [reflexivity|]. split.
  - intros k v. by apply setattr_all_field.
  - intros k. apply setattr_all_other.
Qed.

Lemma one_fills_object_witness :
  exists attrs',
    (DataStoreMySQLMore.one Scenario.env_rows "select id, name from t" (Some [])
       (Some {[ "kept" := VBool true ]}) Sample.selected Sample.world0).1.1
    = DataStoreMySQLMore.OneReturn
        (Some [("id", VInt 1); ("name", VStr "a")]) (Some attrs')
    /\ (forall k v, In (k, v) [("id", VInt 1); ("name", VStr "a")] ->
                    attrs' !! k = Some v)
    /\ (forall k, ~ In k (map fst [("id", VInt 1); ("name", VStr "a")]) ->
                  attrs' !! k = ({[ "kept" := VBool true ]} : gmap string value) !! k).
Proof.
  apply (one_fills_object Scenario.env_rows "select id, name from t" (Some [])
           {[ "kept" := VBool true ]} Sample.selected Sample.world0
           [("id", VInt 1); ("name", VStr "a")]).
  - reflexivity.
  - compute_done.
Defined.

(** X17: on an empty result [one] returns none without a target object and raises
    [RuntimeError] with one. *)
Theorem one_on_empty_result E sql b attrs s w r :
  outcome_of (DataStoreMySQL.query E sql b s w) = Return (RRows r) ->
  rows_items r = [] ->
  (DataStoreMySQLMore.one E sql b None s w).1.1
  = DataStoreMySQLMore.OneReturn None None
  /\ (DataStoreMySQLMore.one E sql b (Some attrs) s w).1.1
     = DataStoreMySQLMore.OneRuntimeError
         "no data is present to assign to object".
Proof.
  intros Hq Hr.
  pose proof (nth_on_rows E 0 sql b s w r Hq) as Hn. rewrite Hr in Hn.
  cbn in Hn. unfold DataStoreMySQLMore.one, outcome_of in *.
  destruct (DataStoreMySQL.nth E 0 sql b s w) as [[o s'] w']. cbn in Hn.
  by subst o.
Qed.

Lemma one_on_empty_result_witness :
  (DataStoreMySQLMore.one Sample.env "select id from t" (Some []) None
     Sample.selected Sample.world0).1.1
  = DataStoreMySQLMore.OneReturn None None
  /\ (DataStoreMySQLMore.one Sample.env "select id from t" (Some [])
        (Some ∅) Sample.selected Sample.world0).1.1
     = DataStoreMySQLMore.OneRuntimeError
         "no data is present to assign to object".
Proof.
  apply (one_on_empty_result Sample.env "select id from t" (Some []) ∅
           Sample.selected Sample.world0 (RowsList [])); reflexivity.
Defined.

(** ** Autonomous transactions *)

Lemma connect_idle_non_persistent E s w h :
  persistent s = false ->
  _DataStoreMySQL__mysql s = Some h ->
  DataStoreMySQL.connect E s w = (Return tt, s, w).
Proof.
  intros Hp Hh. unfold DataStoreMySQL.connect. unfold_monad.
  by rewrite Hp, Hh, ?Hp.
Qed.

(** X18: on a connected, non-persistent session [autonomous_tx_stop_commit] and
    [autonomous_tx_stop_rollback] first commit (unless in the
    test-isolation mode) or roll back on the handle, then close the cursor,
    the handle and the cache client; the session is left without handle and
    cursor. *)
Theorem autonomous_tx_stop_ends_transaction E ignore s w h :
  persistent s = false ->
  _DataStoreMySQL__mysql s = Some h ->
  let closing :=
    (match _memcache s with
     | Some _ => [EvCacheClose]
     | None => []
     end
     ++ [EvCloseConnection h; EvCacheClearLocal]
     ++ match _DataStoreMySQL__cursor s with
        | Some c => [EvCloseCursor c]
        | None => []
        end)%list in
  let committed := DataStoreMySQLMore.autonomous_tx_stop_commit E ignore s w in
  let rolled_back := DataStoreMySQLMore.autonomous_tx_stop_rollback E ignore s w in
  outcome_of committed = Return tt
  /\ outcome_of rolled_back = Return tt
  /\ trace (world_of committed)
     = (closing ++ (if env_unit_test E then [] else [EvCommit h]) ++ trace w)%list
  /\ trace (world_of rolled_back)
     = (closing ++ [EvRollback h] ++ trace w)%list
  /\ _DataStoreMySQL__mysql (self_of committed) = None
  /\ _DataStoreMySQL__mysql (self_of rolled_back) = None
  /\ _DataStoreMySQL__cursor (self_of committed) = None
  /\ _DataStoreMySQL__cursor (self_of rolled_back) = None.
Proof.
  intros Hp Hh.
  unfold DataStoreMySQLMore.autonomous_tx_stop_commit,
    DataStoreMySQLMore.autonomous_tx_stop_rollback,
    DataStoreMySQL.commit, DataStoreMySQL.rollback.
  unfold DataStoreMySQL.close, DataStoreMySQL.__close_cursor.
  unfold_monad. cbn beta. rewrite Hh.
  rewrite !(connect_idle_non_persistent E s w h Hp Hh).
  destruct (env_unit_test E);
    destruct (_DataStoreMySQL__cursor s) as [c|] eqn:Hc;
    destruct (_memcache s) as [m|] eqn:Hm;
    repeat (progress (cbn; rewrite ?Hc, ?Hh, ?Hp, ?Hm));
    by repeat split.
Qed.

Lemma autonomous_tx_stop_ends_transaction_witness :
  let s := Scenario.autonomous in
  let w := Scenario.autonomous_world in
  let closing :=
    (match _memcache s with
     | Some _ => [EvCacheClose]
     | None => []
     end
     ++ [EvCloseConnection 0%nat; EvCacheClearLocal]
     ++ match _DataStoreMySQL__cursor s with
        | Some c => [EvCloseCursor c]
        | None => []
        end)%list in
  let committed :=
    DataStoreMySQLMore.autonomous_tx_stop_commit Sample.env false s w in
  let rolled_back :=
    DataStoreMySQLMore.autonomous_tx_stop_rollback Sample.env false s w in
  outcome_of committed = Return tt
  /\ outcome_of rolled_back = Return tt
  /\ trace (world_of committed)
     = (closing ++ (if env_unit_test Sample.env then [] else [EvCommit 0%nat])
        ++ trace w)%list
  /\ trace (world_of rolled_back)
     = (closing ++ [EvRollback 0%nat] ++ trace w)%list
  /\ _DataStoreMySQL__mysql (self_of committed) = None
  /\ _DataStoreMySQL__mysql (self_of rolled_back) = None
  /\ _DataStoreMySQL__cursor (self_of committed) = None
  /\ _DataStoreMySQL__cursor (self_of rolled_back) = None.
Proof.
  apply (autonomous_tx_stop_ends_transaction Sample.env false
           Scenario.autonomous Scenario.autonomous_world 0%nat); reflexivity.
Defined.

(** X19: on a session that never connected, the two stop functions raise before
    [close] is reached, leaving the session untouched, unless exceptions are
    ignored, in which case they do what [close] does. *)
Theorem autonomous_tx_stop_without_connection E s w :
  _DataStoreMySQL__mysql s = None ->
  (exists message,
     DataStoreMySQLMore.autonomous_tx_stop_commit E false s w
     = (Raise (DataStoreException message), s, w))
  /\ (exists message,
        DataStoreMySQLMore.autonomous_tx_stop_rollback E false s w
        = (Raise (DataStoreException message), s, w))
  /\ DataStoreMySQLMore.autonomous_tx_stop_commit E true s w
     = DataStoreMySQL.close s w
  /\ DataStoreMySQLMore.autonomous_tx_stop_rollback E true s w
     = DataStoreMySQL.close s w.
Proof.
  intros Hh.
  unfold DataStoreMySQLMore.autonomous_tx_stop_commit,
    DataStoreMySQLMore.autonomous_tx_stop_rollback,
    DataStoreMySQL.commit, DataStoreMySQL.rollback.
  unfold bind, get_self, ret, raise. cbn beta iota. rewrite Hh. cbn.
  repeat split; by eexists.
Qed.

Lemma autonomous_tx_stop_without_connection_witness :
  let s := DataStoreMySQLMore.autonomous_tx_start Sample.env "local" "db1" in
  (exists message,
     DataStoreMySQLMore.autonomous_tx_stop_commit Sample.env false s Sample.world0
     = (Raise (DataStoreException message), s, Sample.world0))
  /\ (exists message,
        DataStoreMySQLMore.autonomous_tx_stop_rollback Sample.env false s
          Sample.world0
        = (Raise (DataStoreException message), s, Sample.world0))
  /\ DataStoreMySQLMore.autonomous_tx_stop_commit Sample.env true s Sample.world0
     = DataStoreMySQL.close s Sample.world0
  /\ DataStoreMySQLMore.autonomous_tx_stop_rollback Sample.env true s Sample.world0
     = DataStoreMySQL.close s Sample.world0.
Proof.
  apply (autonomous_tx_stop_without_connection Sample.env
           (DataStoreMySQLMore.autonomous_tx_start Sample.env "local" "db1")
           Sample.world0).
  reflexivity.
Defined.

(** ** The statements of [create] and [delete] *)

Lemma bind_of_placeholder (key : string) (v : value) :
  DataStoreMySQL.bind_of key v
  = VStr (if DataStoreMySQL.is_literal v then Py.str v
          else if Re.search_binary_prefix key then "_binary %s" else "%s").
Proof.
  unfold DataStoreMySQL.bind_of.
  destruct (DataStoreMySQL.is_literal v) eqn:Hlit.
  - by apply is_literal_str.
  - by destruct (Re.search_binary_prefix key).
Qed.

Lemma get_binds_lookup (data : DataStoreMySQL.dict) (i : nat) (key : string) (v : value) :
  data !! i = Some (key, v) ->
  DataStoreMySQL.__get_binds data !! i = Some (DataStoreMySQL.bind_of key v).
Proof.
  unfold DataStoreMySQL.__get_binds. revert i.
  induction data as [|kv rest IH]; intros [|i] Hi; try done.
  - cbn in Hi |- *. by injection Hi as ->.
  - by apply (IH i).
Qed.

Lemma assignments_clauses (data rest : DataStoreMySQL.dict) (done_ : DataStoreMySQL.dict) :
  data = (done_ ++ rest)%list ->
  exists clauses : list string,
    DataStoreMySQL.assignments (DataStoreMySQL.__get_binds data)
      (length done_) (map fst rest) = Some clauses
    /\ length clauses = length rest
    /\ forall (i : nat) (key : string) (v : value),
         rest !! i = Some (key, v) ->
         clauses !! i
         = Some (key ++ " = "
                 ++ (if DataStoreMySQL.is_literal v then Py.str v
                     else if Re.search_binary_prefix key then "_binary %s"
                     else "%s")).
Proof.
  revert done_. induction rest as [|[k v] rest IH]; intros done_ Hdata.
  { exists []. by repeat split. }
  destruct (IH (done_ ++ [(k, v)])%list) as (clauses & Hc & Hlen & Hnth).
  { by rewrite <- app_assoc. }
  rewrite length_app in Hc. cbn [length] in Hc.
  replace (length done_ + 1)%nat with (S (length done_)) in Hc by lia.
  eexists (_ :: clauses). split; [|split].
  - cbn [map fst DataStoreMySQL.assignments]. unfold DataStoreMySQL.assignment.
    rewrite (get_binds_lookup data (length done_) k v).
    + rewrite bind_of_placeholder, Hc. reflexivity.
    + rewrite Hdata. by apply list_lookup_middle.
  - cbn. by rewrite Hlen.
  - intros [|i] key v' Hi; cbn in Hi |- *.
    + by injection Hi as -> ->.
    + by apply Hnth.
Qed.

(** X20: for a non-empty mapping [delete] builds
    [delete from target where c1, c2, ...], the clauses joined by a comma,
    one per field and in order, the i-th being the key (with its
    [_binary ] marker, if any), [ = ] and the placeholder of the field; the
    binds are all the values, the literal ones included. *)
Theorem delete_statement_where_clause (target : string) (data : DataStoreMySQL.dict) :
  data <> [] ->
  exists clauses : list string,
    DataStoreMySQL.delete_sql target data
    = Some ("delete from " ++ target ++ " where "
            ++ String.concat ", " clauses,
            Some (map snd data))
    /\ length clauses = length data
    /\ forall (i : nat) (key : string) (v : value),
         data !! i = Some (key, v) ->
         clauses !! i
         = Some (key ++ " = "
                 ++ (if DataStoreMySQL.is_literal v then Py.str v
                     else if Re.search_binary_prefix key then "_binary %s"
                     else "%s")).
Proof.
  intros Hne.
  destruct (assignments_clauses data data [] eq_refl) as (clauses & Hc & Hlen & Hnth).
  exists clauses. split; [|done].
  unfold DataStoreMySQL.delete_sql, DataStoreMySQL.__convert_to_prepared.
  destruct data as [|kv rest]; [done|]. cbn [length Nat.ltb Nat.leb].
  cbn [length] in Hc. rewrite Hc. reflexivity.
Qed.

Lemma delete_statement_where_clause_witness :
  exists clauses : list string,
    DataStoreMySQL.delete_sql "files" Scenario.fields
    = Some ("delete from " ++ "files" ++ " where "
            ++ String.concat ", " clauses,
            Some (map snd Scenario.fields))
    /\ length clauses = length Scenario.fields
    /\ forall (i : nat) (key : string) (v : value),
         Scenario.fields !! i = Some (key, v) ->
         clauses !! i
         = Some (key ++ " = "
                 ++ (if DataStoreMySQL.is_literal v then Py.str v
                     else if Re.search_binary_prefix key then "_binary %s"
                     else "%s")).
Proof.
  apply (delete_statement_where_clause "files" Scenario.fields). discriminate.
Defined.

Example delete_sql_sample :
  DataStoreMySQL.delete_sql "files" Scenario.fields
  = Some ("delete from files where name = %s, _binary body = _binary %s, created = current_timestamp()",
          Some [VStr "a.txt"; VStr "xyz"; VStr "current_timestamp()"]).
Proof. vm_compute. reflexivity. Qed.

(** A positional marker of a statement. *)
Lemma literal_is_no_marker (v : value) :
  DataStoreMySQL.is_literal v = true ->
  v <> VStr "%s" /\ v <> VStr "_binary %s".
Proof. intros Hlit. split; intros ->; discriminate Hlit. Qed.

(** X21: the values [create] binds are the values of the fields that are not
    literals, in order, and they are as many as the positional markers
    among the placeholders. *)
Theorem create_binds_one_value_per_marker (data : DataStoreMySQL.dict) :
  length (DataStoreMySQL.__get_values (map snd data))
  = length (filter (fun p => p = VStr "%s" \/ p = VStr "_binary %s")
              (DataStoreMySQL.__get_binds data))
  /\ DataStoreMySQL.__get_values (map snd data)
     = map snd (filter (fun kv => DataStoreMySQL.is_literal kv.2 = false) data).
Proof.
  unfold DataStoreMySQL.__get_values, DataStoreMySQL.__get_binds.
  induction data as [|[k v] rest [IHlen IHval]]; [done|].
  cbn [map fst snd].
  destruct (DataStoreMySQL.is_literal v) eqn:Hlit.
  - destruct (literal_is_no_marker v Hlit) as [N1 N2].
    rewrite (filter_cons_False (fun v => DataStoreMySQL.is_literal v = false))
      by (by rewrite Hlit).
    rewrite (filter_cons_False (fun kv : string * value => DataStoreMySQL.is_literal kv.2 = false))
      by (cbn; by rewrite Hlit).
    rewrite filter_cons_False.
    + done.
    + unfold DataStoreMySQL.bind_of. rewrite Hlit. tauto.
  - rewrite (filter_cons_True (fun v => DataStoreMySQL.is_literal v = false))
      by done.
    rewrite (filter_cons_True (fun kv : string * value => DataStoreMySQL.is_literal kv.2 = false))
      by done.
    rewrite filter_cons_True.
    + cbn. by rewrite IHlen, IHval.
    + unfold DataStoreMySQL.bind_of. rewrite Hlit.
      destruct (Re.search_binary_prefix k); auto.
Qed.

(** X22: when the driver fails the insert of [create] with an integrity error,
    code 1048 becomes [ColumnCannotBeNullException] with the parsed column,
    1062 [DataStoreDuplicateKeyException], 1452
    [DataStoreForeignKeyException], any other code is re-raised unchanged;
    an internal error is always re-raised unchanged; a programming error
    becomes a [DataStoreException] whose message shows the placeholders.
    Whatever is raised, the stored row count is unchanged and the cursor is
    left open. *)
Theorem create_error_taxonomy E target data rid s w sql :
  data <> [] ->
  DataStoreMySQL.create_sql target data = Some sql ->
  outcome_of (DataStoreMySQL.connect E s w) = Return tt ->
  let vals := Some (DataStoreMySQL.__get_values (map snd data)) in
  let r := DataStoreMySQL.create E target data rid s w in
  (forall errno message,
     driver_execute E sql vals = ExecIntegrityError errno message ->
     (errno = 1048 ->
      outcome_of r = match Re.match_not_null message with
                     | Some column => Raise (ColumnCannotBeNullException column)
                     | None => Raise AttributeError
                     end)
     /\ (errno = 1062 ->
         outcome_of r = Raise (DataStoreDuplicateKeyException message))
     /\ (errno = 1452 ->
         outcome_of r = Raise (DataStoreForeignKeyException message))
     /\ (errno <> 1048 -> errno <> 1062 -> errno <> 1452 ->
         outcome_of r = Raise (IntegrityError errno message)))
  /\ (forall errno message,
        driver_execute E sql vals = ExecInternalError errno message ->
        outcome_of r = Raise (InternalError errno message))
  /\ (forall errno message,
        driver_execute E sql vals = ExecProgrammingError errno message ->
        outcome_of r
        = Raise (DataStoreException
                   (DataStoreMySQL.__format_query_execution_error E sql message
                      (Some (DataStoreMySQL.__get_binds data)))))
  /\ (forall e, outcome_of r = Raise e ->
        DataStoreMySQL.get_row_count (self_of r) = DataStoreMySQL.get_row_count s
        /\ is_Some (_DataStoreMySQL__cursor (self_of r))).
Proof.
  intros Hne Hsql Hc. as_wp. unfold DataStoreMySQL.create.
  destruct (length data =? 0)%nat eqn:Hlen; [by destruct data|].
  rewrite Hsql.
  generalize (DataStoreMySQL.__get_values (map snd data)) as values.
  generalize (DataStoreMySQL.__get_binds data) as placeholders.
  intros placeholders values.
  apply wp_bind.
  pose proof (connect_spec E s w) as S1. unfold wp in S1. unfold wp at 1.
  destruct (DataStoreMySQL.connect E s w) as [[[[]|e] s1] w1];
    cbn [outcome_of self_of world_of fst snd] in *; [|done].
  destruct S1 as ((_ & _ & _ & Hrc & _) & _ & _ & Hsome).
  destruct (Hsome eq_refl) as [h Hh].
  unfold wp, DataStoreMySQL.__get_cursor, DataStoreMySQL.__close_cursor,
    DataStoreMySQL.raise_not_null, DataStoreMySQL.__extract_not_null_column,
    DataStoreMySQL.get_row_count.
  unfold_monad. rewrite Hh.
  assert (forall errno, errno <> 1048 -> (errno =? 1048) = false) as N1 by lia.
  assert (forall errno, errno <> 1062 -> (errno =? 1062) = false) as N2 by lia.
  assert (forall errno, errno <> 1452 -> (errno =? 1452) = false) as N4 by lia.
  destruct (_DataStoreMySQL__cursor s1) as [c|] eqn:Hc1;
    cbn -[Re.match_not_null DataStoreMySQL.__format_query_execution_error];
    destruct (driver_execute E sql _) as [| errno0 m0 | errno0 m0 | errno0 m0 | m0];
    cbn -[Re.match_not_null DataStoreMySQL.__format_query_execution_error];
    rewrite ?Hc1;
    cbn -[Re.match_not_null DataStoreMySQL.__format_query_execution_error];
    repeat split; intros; simplify_eq/=;
    rewrite ?N1, ?N2, ?N4 by done;
    cbn -[Re.match_not_null DataStoreMySQL.__format_query_execution_error];
    try done; try (by case_match);
    repeat case_match; simplify_eq/=; by eauto.
Qed.

Lemma create_error_taxonomy_witness :
  let vals := Some (DataStoreMySQL.__get_values (map snd Scenario.fields)) in
  let sql := "insert into files(name, body, created) values (%s, _binary %s, current_timestamp())" in
  let r := DataStoreMySQL.create Sample.env_duplicate "files" Scenario.fields
             true Sample.selected Sample.world0 in
  (forall errno message,
     driver_execute Sample.env_duplicate sql vals
     = ExecIntegrityError errno message ->
     (errno = 1048 ->
      outcome_of r = match Re.match_not_null message with
                     | Some column => Raise (ColumnCannotBeNullException column)
                     | None => Raise AttributeError
                     end)
     /\ (errno = 1062 ->
         outcome_of r = Raise (DataStoreDuplicateKeyException message))
     /\ (errno = 1452 ->
         outcome_of r = Raise (DataStoreForeignKeyException message))
     /\ (errno <> 1048 -> errno <> 1062 -> errno <> 1452 ->
         outcome_of r = Raise (IntegrityError errno message)))
  /\ (forall errno message,
        driver_execute Sample.env_duplicate sql vals
        = ExecInternalError errno message ->
        outcome_of r = Raise (InternalError errno message))
  /\ (forall errno message,
        driver_execute Sample.env_duplicate sql vals
        = ExecProgrammingError errno message ->
        outcome_of r
        = Raise (DataStoreException
                   (DataStoreMySQL.__format_query_execution_error
                      Sample.env_duplicate sql message
                      (Some (DataStoreMySQL.__get_binds Scenario.fields)))))
  /\ (forall e, outcome_of r = Raise e ->
        DataStoreMySQL.get_row_count (self_of r)
        = DataStoreMySQL.get_row_count Sample.selected
        /\ is_Some (_DataStoreMySQL__cursor (self_of r))).
Proof.
  apply (create_error_taxonomy Sample.env_duplicate "files" Scenario.fields
           true Sample.selected Sample.world0
           "insert into files(name, body, created) values (%s, _binary %s, current_timestamp())").
  - discriminate.
  - reflexivity.
  - reflexivity.
Defined.

(** ** The registry, call by call *)

Section RegistrySteps.

Import DataStoreProvider.

Context (E : Env).

Lemma well_formed_thread_attrs R tid connection dsh :
  well_formed R ->
  thread_attrs tid R !! connection = Some dsh ->
  (dsh < length (heap R))%nat.
Proof.
  intros [Hwt _] Hb. unfold thread_attrs in Hb.
  destruct (_thread_local_data R !! tid) as [attrs|] eqn:Ht; [|done].
  by apply (Hwt tid attrs connection).
Qed.

Lemma well_formed_slots R connection pid dsh :
  well_formed R ->
  slots_of connection R !! pid = Some dsh ->
  (dsh < length (heap R))%nat.
Proof.
  intros [_ Hwp] Hb. unfold slots_of in Hb.
  destruct (_DataStoreProvider__persistent R !! connection) as [slots|] eqn:Ht;
    [|done].
  by apply (Hwp connection slots pid).
Qed.

(** A registry that differs from a well-formed one in a bounded way is
    well-formed. *)
Lemma well_formed_from R R' :
  well_formed R ->
  (length (heap R) <= length (heap R'))%nat ->
  (forall tid connection dsh,
     thread_attrs tid R' !! connection = Some dsh ->
     thread_attrs tid R !! connection = Some dsh
     \/ (dsh < length (heap R'))%nat) ->
  (forall connection pid dsh,
     slots_of connection R' !! pid = Some dsh ->
     slots_of connection R !! pid = Some dsh
     \/ (dsh < length (heap R'))%nat) ->
  well_formed R'.
Proof.
  intros Hwf Hlen Ht Hp. split.
  - intros tid attrs connection dsh Htid Hattrs.
    assert (thread_attrs tid R' !! connection = Some dsh) as Hb
      by (unfold thread_attrs; by rewrite Htid).
    destruct (Ht tid connection dsh Hb) as [Hold|]; [|done].
    apply (well_formed_thread_attrs _ _ _ _ Hwf) in Hold. lia.
  - intros connection slots pid dsh Hc Hslots.
    assert (slots_of connection R' !! pid = Some dsh) as Hb
      by (unfold slots_of; by rewrite Hc).
    destruct (Hp connection pid dsh Hb) as [Hold|]; [|done].
    apply (well_formed_slots _ _ _ _ Hwf) in Hold. lia.
Qed.

Lemma thread_attrs_setattr tid tid' connection dsh R :
  thread_attrs tid' (setattr_thread_local tid connection dsh R)
  = if decide (tid = tid') then <[connection := dsh]> (thread_attrs tid R)
    else thread_attrs tid' R.
Proof.
  unfold thread_attrs at 1, setattr_thread_local. cbn.
  rewrite lookup_insert. by case_decide; subst.
Qed.

Lemma slots_of_set_persistent_map connection connection' slots R :
  slots_of connection'
    (set_persistent_map
       (<[connection := slots]> (_DataStoreProvider__persistent R)) R)
  = if decide (connection = connection') then slots
    else slots_of connection' R.
Proof.
  unfold slots_of, set_persistent_map. cbn.
  rewrite lookup_insert. by case_decide; subst.
Qed.

Lemma thread_attrs_allocate tid s R :
  thread_attrs tid (allocate s R).2 = thread_attrs tid R.
Proof. reflexivity. Qed.

Lemma slots_of_allocate connection s R :
  slots_of connection (allocate s R).2 = slots_of connection R.
Proof. reflexivity. Qed.

Lemma slots_of_setattr connection tid connection' dsh R :
  slots_of connection (setattr_thread_local tid connection' dsh R)
  = slots_of connection R.
Proof. reflexivity. Qed.

Lemma thread_attrs_set_persistent_map tid m R :
  thread_attrs tid (set_persistent_map m R) = thread_attrs tid R.
Proof. reflexivity. Qed.

(** The branch that binds a name the thread has no attribute for. *)
Lemma bind_new_handle_spec self_pid tid connection persistent_ R :
  well_formed R ->
  exists dsh R2 obj,
    bind_new_handle E self_pid tid connection persistent_ R = (dsh, R2)
    /\ heap R2 !! dsh = Some obj
    /\ hit_ratio R2 = hit_ratio R
    /\ well_formed R2
    /\ (length (heap R) <= length (heap R2))%nat
    /\ (forall tid',
          thread_attrs tid' R2
          = if decide (tid = tid')
            then <[connection := dsh]> (thread_attrs tid R)
            else thread_attrs tid' R)
    /\ (forall connection', connection' <> connection ->
          slots_of connection' R2 = slots_of connection' R)
    /\ (if persistent_
        then slots_of connection R2 = <[self_pid := dsh]> (slots_of connection R)
             /\ match slots_of connection R !! self_pid with
                | Some d => dsh = d
                | None => dsh = length (heap R)
                end
        else dsh = length (heap R)
             /\ slots_of connection R2 = slots_of connection R
             /\ persistent obj = false).
Proof.
  intros Hwf. unfold bind_new_handle.
  destruct persistent_.
  - destruct (slots_of connection R !! self_pid) as [d|] eqn:Hslot.
    + pose proof (well_formed_slots R connection self_pid d Hwf Hslot) as Hlt.
      destruct (lookup_lt_is_Some_2 (heap R) d Hlt) as [obj Hobj].
      exists d, (setattr_thread_local tid connection d R), obj.
      split; [done|]. split; [done|]. split; [done|].
      split; [|split; [done|split; [intros tid'; apply thread_attrs_setattr|]]].
      * apply (well_formed_from R); [done|done| |intros; by left].
        intros tid' c' dsh. rewrite thread_attrs_setattr.
        case_decide; [subst tid'|intros ?; by left].
        rewrite lookup_insert. case_decide; [|intros ?; by left].
        intros [= <-]. by right.
      * split; [done|]. split; [|done].
        symmetry. by apply insert_id.
    + set (fresh := DataStoreMySQL.new_DataStoreMySQL E).
      exists (length (heap R)).
      eexists. exists fresh.
      split; [reflexivity|].
      split; [cbn; by apply list_lookup_middle|].
      split; [done|].
      assert (length (heap R) < length (heap R ++ [fresh]))%nat as Hlt
        by (rewrite length_app; cbn; lia).
      split; [|split; [cbn; lia|split]].
      * apply (well_formed_from R); [done|cbn; lia| |].
        -- intros tid' c' dsh. rewrite thread_attrs_setattr.
           rewrite thread_attrs_set_persistent_map.
           case_decide; [subst tid'|intros ?; by left].
           rewrite lookup_insert. case_decide; [|intros ?; by left].
           intros [= <-]. by right.
        -- intros c' pid dsh. rewrite slots_of_setattr.
           rewrite slots_of_set_persistent_map.
           case_decide; [subst c'|intros ?; by left].
           rewrite lookup_insert. case_decide; [|intros ?; by left].
           intros [= <-]. by right.
      * intros tid'. rewrite thread_attrs_setattr.
        by rewrite !thread_attrs_set_persistent_map.
      * split.
        { intros c' Hc'. rewrite slots_of_setattr, slots_of_set_persistent_map.
          by rewrite decide_False by done. }
        split; [|done].
        rewrite slots_of_setattr, slots_of_set_persistent_map.
        by rewrite decide_True by done.
  - set (fresh := with_persistent false (DataStoreMySQL.new_DataStoreMySQL E)).
    exists (length (heap R)).
    eexists. exists fresh.
    split; [reflexivity|].
    split; [cbn; by apply list_lookup_middle|].
    split; [done|].
    assert (length (heap R) < length (heap R ++ [fresh]))%nat as Hlt
      by (rewrite length_app; cbn; lia).
    split; [|split; [cbn; lia|split]].
    + apply (well_formed_from R); [done|cbn; lia| |intros; by left].
      intros tid' c' dsh. rewrite thread_attrs_setattr.
      case_decide; [subst tid'|intros ?; by left].
      rewrite lookup_insert. case_decide; [|intros ?; by left].
      intros [= <-]. by right.
    + intros tid'. by rewrite thread_attrs_setattr.
    + by repeat split.
Qed.

Hypothesis mysql_configured : config_data_store E = "mysql".

(** One call of the registry, in full. *)
Lemma get_data_store_handle_step self_pid tid connection db persistent_ R :
  well_formed R ->
  exists dsh R' obj,
    get_data_store_handle E self_pid tid connection db persistent_ R
    = (Returned dsh, R')
    /\ heap R' !! dsh = Some obj
    /\ _connection_name obj = Some connection
    /\ _db_name obj = Some db
    /\ hit_ratio R' = (requests obj, hits obj, self_pid) :: hit_ratio R
    /\ well_formed R'
    /\ (length (heap R) <= length (heap R'))%nat
    /\ (forall tid',
          thread_attrs tid' R'
          = if decide (tid = tid')
            then <[connection := dsh]> (thread_attrs tid R)
            else thread_attrs tid' R)
    /\ (forall connection', connection' <> connection ->
          slots_of connection' R' = slots_of connection' R)
    /\ match thread_attrs tid R !! connection with
       | Some d => dsh = d /\ slots_of connection R' = slots_of connection R
       | None =>
           if persistent_
           then slots_of connection R'
                = <[self_pid := dsh]> (slots_of connection R)
                /\ match slots_of connection R !! self_pid with
                   | Some d => dsh = d
                   | None => dsh = length (heap R)
                   end
           else dsh = length (heap R)
                /\ slots_of connection R' = slots_of connection R
                /\ persistent obj = false
       end.
Proof.
  intros Hwf. unfold get_data_store_handle.
  rewrite bool_decide_eq_true_2 by done.
  set (R1 := match _DataStoreProvider__persistent R !! connection with
             | Some _ => R
             | None => _
             end).
  assert (heap R1 = heap R /\ hit_ratio R1 = hit_ratio R
          /\ (forall tid', thread_attrs tid' R1 = thread_attrs tid' R)
          /\ (forall c', slots_of c' R1 = slots_of c' R))
    as (Hheap & Hhit & Hattrs & Hslots).
  { unfold R1.
    destruct (_DataStoreProvider__persistent R !! connection) as [slots|] eqn:Hs;
      [done|].
    split_and!; try done. intros c'. rewrite slots_of_set_persistent_map.
    case_decide; [subst c'|done]. unfold slots_of. by rewrite Hs. }
  assert (well_formed R1) as Hwf1.
  { apply (well_formed_from R); [done|by rewrite Hheap| |].
    - intros tid' c' dsh. rewrite Hattrs. by left.
    - intros c' pid dsh. rewrite Hslots. by left. }
  clearbody R1.
  assert (exists dsh R2 obj0,
    match thread_attrs tid R1 !! connection with
    | Some dsh => (dsh, R1)
    | None => bind_new_handle E self_pid tid connection persistent_ R1
    end = (dsh, R2)
    /\ heap R2 !! dsh = Some obj0
    /\ hit_ratio R2 = hit_ratio R
    /\ well_formed R2
    /\ (length (heap R) <= length (heap R2))%nat
    /\ (forall tid',
          thread_attrs tid' R2
          = if decide (tid = tid')
            then <[connection := dsh]> (thread_attrs tid R)
            else thread_attrs tid' R)
    /\ (forall connection', connection' <> connection ->
          slots_of connection' R2 = slots_of connection' R)
    /\ match thread_attrs tid R !! connection with
       | Some d => dsh = d /\ slots_of connection R2 = slots_of connection R
       | None =>
           if persistent_
           then slots_of connection R2
                = <[self_pid := dsh]> (slots_of connection R)
                /\ match slots_of connection R !! self_pid with
                   | Some d => dsh = d
                   | None => dsh = length (heap R)
                   end
           else dsh = length (heap R)
                /\ slots_of connection R2 = slots_of connection R
                /\ persistent obj0 = false
       end) as (dsh & R2 & obj0 & -> & Hobj & Hhit2 & Hwf2 & Hlen & Hat2 & Hsl2 & Hcase).
  { rewrite Hattrs.
    destruct (thread_attrs tid R !! connection) as [d|] eqn:Hb.
    - pose proof (well_formed_thread_attrs R tid connection d Hwf Hb) as Hlt.
      destruct (lookup_lt_is_Some_2 (heap R) d Hlt) as [obj0 Hobj0].
      exists d, R1, obj0. rewrite Hheap, Hhit.
      split_and!; try done; try (intros c' _; apply Hslots).
      intros tid'. rewrite Hattrs. case_decide; [subst tid'|done].
      symmetry. by apply insert_id.
    - destruct (bind_new_handle_spec self_pid tid connection persistent_ R1 Hwf1)
        as (dsh & R2 & obj0 & Hrun & Hobj0 & Hhit2 & Hwf2 & Hlen & Hat2 & Hsl2 & Hcase).
      exists dsh, R2, obj0. rewrite Hrun.
      rewrite Hheap, Hhit, Hattrs in *.
      split_and!; try done;
        try (intros tid'; rewrite Hat2; by rewrite !Hattrs);
        try (intros c' Hc'; rewrite Hsl2 by done; apply Hslots).
      rewrite <- (Hslots connection). exact Hcase. }
  rewrite Hobj.
  eexists dsh, _, (RDBMSBase.select_db_self connection db obj0).
  split; [reflexivity|]. cbn.
  split; [apply list_lookup_insert_eq; by eapply lookup_lt_Some|].
  split; [done|]. split; [done|].
  split; [rewrite Hhit2; by destruct (_ || _)|].
  split.
  { apply (well_formed_from R2); [done|cbn; by rewrite length_insert| |];
      intros; by left. }
  split; [by rewrite length_insert|].
  split; [exact Hat2|]. split; [exact Hsl2|].
  destruct (thread_attrs tid R !! connection); [done|].
  destruct persistent_; [done|].
  destruct Hcase as (? & ? & Hp). split_and!; try done.
  unfold RDBMSBase.select_db_self. by case_match.
Qed.

(** X23: on a MySQL configuration every request to the registry returns a
    session of the heap, rebound to the requested connection and database,
    binds it to the calling thread under the connection name, leaves the
    bindings of the other threads alone, reports the session's requests and
    hits with the provider's pid, and keeps the registry free of dangling
    references. *)
Theorem get_data_store_handle_returns_bound_session
    self_pid tid connection db persistent_ R :
  well_formed R ->
  exists dsh R' obj,
    get_data_store_handle E self_pid tid connection db persistent_ R
    = (Returned dsh, R')
    /\ heap R' !! dsh = Some obj
    /\ _connection_name obj = Some connection
    /\ _db_name obj = Some db
    /\ thread_attrs tid R' !! connection = Some dsh
    /\ (forall tid', tid' <> tid -> thread_attrs tid' R' = thread_attrs tid' R)
    /\ hit_ratio R' = (requests obj, hits obj, self_pid) :: hit_ratio R
    /\ well_formed R'.
Proof.
  intros Hwf.
  destruct (get_data_store_handle_step self_pid tid connection db persistent_ R Hwf)
    as (dsh & R' & obj & Hrun & Hobj & Hc & Hd & Hhit & Hwf' & _ & Hat & _).
  exists dsh, R', obj. split_and!; try done.
  - rewrite Hat, decide_True by done. apply lookup_insert_eq.
  - intros tid' Hne. by rewrite Hat, decide_False.
Qed.

(** X24: two threads of one process that each ask for a persistent handle to the
    same connection name, neither having one bound yet, get the identical
    session. *)
Theorem persistent_session_shared_across_threads
    self_pid tid1 tid2 connection db1 db2 R :
  well_formed R ->
  tid1 <> tid2 ->
  thread_attrs tid1 R !! connection = None ->
  thread_attrs tid2 R !! connection = None ->
  exists dsh R1 R2,
    get_data_store_handle E self_pid tid1 connection db1 true R
    = (Returned dsh, R1)
    /\ get_data_store_handle E self_pid tid2 connection db2 true R1
       = (Returned dsh, R2).
Proof.
  intros Hwf Hne Hb1 Hb2.
  destruct (get_data_store_handle_step self_pid tid1 connection db1 true R Hwf)
    as (d1 & R1 & obj1 & Hrun1 & _ & _ & _ & _ & Hwf1 & _ & Hat1 & _ & Hcase1).
  rewrite Hb1 in Hcase1. destruct Hcase1 as [Hslots1 _].
  destruct (get_data_store_handle_step self_pid tid2 connection db2 true R1 Hwf1)
    as (d2 & R2 & obj2 & Hrun2 & _ & _ & _ & _ & _ & _ & _ & _ & Hcase2).
  rewrite Hat1, decide_False, Hb2 in Hcase2 by done.
  destruct Hcase2 as [_ Hd2].
  rewrite Hslots1, lookup_insert_eq in Hd2. subst d2.
  by exists d1, R1, R2.
Qed.

(** X25: a thread with no session bound to the name gets a session different from
    the one another thread has just been given whenever its own request is
    non-persistent, and also when it is persistent but comes from another
    process that has no persistent session for the name yet. *)
Theorem sessions_not_shared_across_threads
    pid1 pid2 tid1 tid2 connection db1 db2 persistent1 persistent2 R :
  well_formed R ->
  tid1 <> tid2 ->
  thread_attrs tid2 R !! connection = None ->
  exists d1 d2 R1 R2,
    get_data_store_handle E pid1 tid1 connection db1 persistent1 R
    = (Returned d1, R1)
    /\ get_data_store_handle E pid2 tid2 connection db2 persistent2 R1
       = (Returned d2, R2)
    /\ (persistent2 = false -> d1 <> d2)
    /\ (pid1 <> pid2 -> slots_of connection R !! pid2 = None -> d1 <> d2).
Proof.
  intros Hwf Hne Hb2.
  destruct (get_data_store_handle_step pid1 tid1 connection db1 persistent1 R Hwf)
    as (d1 & R1 & obj1 & Hrun1 & Hobj1 & _ & _ & _ & Hwf1 & _ & Hat1 & _ & Hcase1).
  apply lookup_lt_Some in Hobj1.
  destruct (get_data_store_handle_step pid2 tid2 connection db2 persistent2 R1 Hwf1)
    as (d2 & R2 & obj2 & Hrun2 & _ & _ & _ & _ & _ & _ & _ & _ & Hcase2).
  rewrite Hat1, decide_False, Hb2 in Hcase2 by done.
  exists d1, d2, R1, R2. split_and!; try done.
  - intros ->. destruct Hcase2 as [-> _]. lia.
  - intros Hpid Hfree.
    assert (slots_of connection R1 !! pid2 = None) as Hfree1.
    { destruct (thread_attrs tid1 R !! connection).
      - destruct Hcase1 as [_ ->]. done.
      - destruct persistent1.
        + destruct Hcase1 as [-> _]. by rewrite lookup_insert_ne.
        + destruct Hcase1 as (_ & -> & _). done. }
    destruct persistent2.
    + destruct Hcase2 as [_ Hd2]. rewrite Hfree1 in Hd2. lia.
    + destruct Hcase2 as [-> _]. lia.
Qed.

End RegistrySteps.

(** X26: when the configured data store is not [mysql] the registry raises a
    [DataStoreException] and changes nothing. *)
Theorem get_data_store_handle_unsupported_backend
    E self_pid tid connection db persistent_ R :
  config_data_store E <> "mysql" ->
  DataStoreProvider.get_data_store_handle E self_pid tid connection db
    persistent_ R
  = (DataStoreProvider.Raised
       (DataStoreException "configured data store is not currently supported"),
     R).
Proof.
  intros Hne. unfold DataStoreProvider.get_data_store_handle.
  by rewrite bool_decide_eq_false_2.
Qed.

Lemma get_data_store_handle_unsupported_backend_witness :
  DataStoreProvider.get_data_store_handle Scenario.env_postgres 4242 0
    "local" "db1" true Sample.empty_registry
  = (DataStoreProvider.Raised
       (DataStoreException "configured data store is not currently supported"),
     Sample.empty_registry).
Proof.
  apply (get_data_store_handle_unsupported_backend Scenario.env_postgres 4242
           0%nat "local" "db1" true Sample.empty_registry).
  discriminate.
Defined.

Lemma get_data_store_handle_returns_bound_session_witness :
  exists dsh R' obj,
    DataStoreProvider.get_data_store_handle Sample.env 4242 0 "local" "db1"
      false Sample.empty_registry
    = (DataStoreProvider.Returned dsh, R')
    /\ DataStoreProvider.heap R' !! dsh = Some obj
    /\ _connection_name obj = Some "local"
    /\ _db_name obj = Some "db1"
    /\ DataStoreProvider.thread_attrs 0 R' !! "local" = Some dsh
    /\ (forall tid', tid' <> 0%nat ->
          DataStoreProvider.thread_attrs tid' R'
          = DataStoreProvider.thread_attrs tid' Sample.empty_registry)
    /\ DataStoreProvider.hit_ratio R'
       = (requests obj, hits obj, 4242)
         :: DataStoreProvider.hit_ratio Sample.empty_registry
    /\ DataStoreProvider.well_formed R'.
Proof.
  apply (get_data_store_handle_returns_bound_session Sample.env eq_refl 4242
           0%nat "local" "db1" false Sample.empty_registry).
  split; intros *; cbn; by rewrite lookup_empty.
Defined.

Lemma persistent_session_shared_across_threads_witness :
  exists dsh R1 R2,
    DataStoreProvider.get_data_store_handle Sample.env 4242 1 "local" "db1"
      true Sample.empty_registry
    = (DataStoreProvider.Returned dsh, R1)
    /\ DataStoreProvider.get_data_store_handle Sample.env 4242 2 "local" "db2"
         true R1
       = (DataStoreProvider.Returned dsh, R2).
Proof.
  apply (persistent_session_shared_across_threads Sample.env eq_refl 4242
           1%nat 2%nat "local" "db1" "db2" Sample.empty_registry).
  - split; intros *; cbn; by rewrite lookup_empty.
  - discriminate.
  - reflexivity.
  - reflexivity.
Defined.

Lemma sessions_not_shared_across_threads_witness :
  exists d1 d2 R1 R2,
    DataStoreProvider.get_data_store_handle Sample.env 4242 1 "local" "db1"
      true Sample.empty_registry
    = (DataStoreProvider.Returned d1, R1)
    /\ DataStoreProvider.get_data_store_handle Sample.env 4343 2 "local" "db1"
         true R1
       = (DataStoreProvider.Returned d2, R2)
    /\ (true = false -> d1 <> d2)
    /\ (4242 <> 4343 ->
        DataStoreProvider.slots_of "local" Sample.empty_registry !! 4343 = None ->
        d1 <> d2).
Proof.
  apply (sessions_not_shared_across_threads Sample.env eq_refl 4242 4343
           1%nat 2%nat "local" "db1" "db1" true true Sample.empty_registry).
  - split; intros *; cbn; by rewrite lookup_empty.
  - discriminate.
  - reflexivity.
Defined.

(** ** The column of a not-null violation, and what [create] hands back *)

(** X27: the column extracted from the driver message
    [Column '<name>' cannot be null] is the name, for every name without a
    line break, quotes inside the name included. *)
Theorem extract_not_null_column_of_message (column : string) :
  (forall c, In c (list_ascii_of_string column) -> c <> Re.newline) ->
  DataStoreMySQL.__extract_not_null_column
    ("Column '" ++ column ++ "' cannot be null")
  = Some column.
Proof.
  intros Hnl. unfold DataStoreMySQL.__extract_not_null_column, Re.match_not_null.
  cbn. by apply greedy_group_column.
Qed.

Lemma extract_not_null_column_of_message_witness :
  DataStoreMySQL.__extract_not_null_column
    ("Column '" ++ "user's name" ++ "' cannot be null")
  = Some "user's name".
Proof.
  apply (extract_not_null_column_of_message "user's name").
  intros c Hc. cbn in Hc.
  repeat (destruct Hc as [<-|Hc]; [discriminate|]). destruct Hc.
Defined.

(** X28: when [connect] returns, a [create] on a non-empty mapping hands the
    driver exactly one statement: the insert statement built from the
    mapping, with the non-literal values as binds, whatever the driver then
    answers. *)
Theorem create_hands_built_statement_to_driver E target data rid s w sql :
  data <> [] ->
  DataStoreMySQL.create_sql target data = Some sql ->
  outcome_of (DataStoreMySQL.connect E s w) = Return tt ->
  executed (trace (world_of (DataStoreMySQL.create E target data rid s w)))
  = (sql, Some (DataStoreMySQL.__get_values (map snd data)))
    :: executed (trace w).
Proof. apply create_executes_statement. Qed.

Lemma create_hands_built_statement_to_driver_witness :
  executed (trace (world_of (DataStoreMySQL.create Sample.env "files"
                               Scenario.fields true Sample.selected
                               Sample.world0)))
  = ("insert into files(name, body, created) values (%s, _binary %s, current_timestamp())",
     Some (DataStoreMySQL.__get_values (map snd Scenario.fields)))
    :: executed (trace Sample.world0).
Proof.
  apply (create_hands_built_statement_to_driver Sample.env "files" Scenario.fields true
           Sample.selected Sample.world0).
  - discriminate.
  - reflexivity.
  - reflexivity.
Defined.

(** X29: a [create] the driver accepts returns the driver's last insert id when
    asked for it and none otherwise, stores the row count and closes the
    cursor. *)
Theorem create_returns_driver_insert_id
    E target data rid s w sql rowcount lastrowid fetched :
  data <> [] ->
  DataStoreMySQL.create_sql target data = Some sql ->
  outcome_of (DataStoreMySQL.connect E s w) = Return tt ->
  driver_execute E sql (Some (DataStoreMySQL.__get_values (map snd data)))
    = ExecOk rowcount lastrowid fetched ->
  let r := DataStoreMySQL.create E target data rid s w in
  outcome_of r = Return (if rid then lastrowid else None)
  /\ DataStoreMySQL.get_row_count (self_of r) = Some rowcount
  /\ _DataStoreMySQL__cursor (self_of r) = None.
Proof. apply create_returns_insert_id. Qed.

Lemma create_returns_driver_insert_id_witness :
  let r := DataStoreMySQL.create Sample.env "files" Scenario.fields true
             Sample.selected Sample.world0 in
  outcome_of r = Return (Some 7)
  /\ DataStoreMySQL.get_row_count (self_of r) = Some 1
  /\ _DataStoreMySQL__cursor (self_of r) = None.
Proof.
  apply (create_returns_driver_insert_id Sample.env "files" Scenario.fields true
           Sample.selected Sample.world0
           "insert into files(name, body, created) values (%s, _binary %s, current_timestamp())"
           1 (Some 7) (RowsTuple [])).
  - discriminate.
  - reflexivity.
  - reflexivity.
  - reflexivity.
Defined.
